(** * multipledispatch.dispatcher: a shallow embedding of [Dispatcher]

    The Python class [Dispatcher] of [multipledispatch/dispatcher.py] owns
    a registry [funcs] (signature -> implementation), a linear [ordering]
    of the registered signatures and a resolution cache [_cache].  This
    file embeds [__init__], [add], [resolve], [__call__] and
    [warning_text] and proves the properties of registration and
    resolution.

    Conventions of the embedding:
    - a signature, and the tuple of argument types of a call, is a
      [list Ty], where [Ty] is the host's type of classes;
    - [funcs] is a Python dict whose iteration order (insertion order) is
      visible to [conflict.ordering], so it is an association list
      ([PyDict]); [_cache] is only ever looked up, stored to and cleared,
      so it is a [gmap];
    - [ordering] is a slot that [__init__] does not fill: it is an
      [option], and reading it while unset raises [AttributeError];
    - methods run in a small monad that threads the dispatcher object,
      may raise, and logs probes: every visit of the scan loop, every
      query of [issubclass], every call of [warnings.warn];
    - the module [conflict] ([ordering], [ambiguities], [super_signature])
      is imported by the file and is taken as parameters. *)

From stdpp Require Import base option list sorting gmap strings.

Local Open Scope string_scope.
Local Open Scope list_scope.

(** ** Python dicts with their insertion order *)

Module PyDict.
Section PyDict.
Context {K V : Type} `{EqDecision K}.

Definition t : Type := list (K * V).

Definition empty : t := [].

(** [d[k]] and [k in d]. *)
Fixpoint get (k : K) (d : t) : option V :=
  match d with
  | [] => None
  | (k', v) :: r => if decide (k = k') then Some v else get k r
  end.

Definition contains (k : K) (d : t) : bool :=
  match get k d with Some _ => true | None => false end.

(** [d[k] = v]: an existing key keeps its place, a new key goes last. *)
Fixpoint set (k : K) (v : V) (d : t) : t :=
  match d with
  | [] => [(k, v)]
  | (k', v') :: r =>
      if decide (k = k') then (k', v) :: r else (k', v') :: set k v r
  end.

(** Iterating over a dict yields its keys in insertion order. *)
Definition keys (d : t) : list K := d.*1.
End PyDict.
Global Arguments t : clear implicits.
End PyDict.

(** ** Outcomes of a call: a value or a raised exception *)

Inductive outcome (E A : Type) : Type :=
  | Return (a : A)
  | Raise (e : E).
Global Arguments Return {E A} a.
Global Arguments Raise {E A} e.

(** [sep.join(parts)] *)
Fixpoint join (sep : string) (parts : list string) : string :=
  match parts with
  | [] => EmptyString
  | [p] => p
  | p :: rest => p +:+ sep +:+ join sep rest
  end.

Definition newline : string := String (Ascii.ascii_of_nat 10) EmptyString.
Definition tab : string := String (Ascii.ascii_of_nat 9) EmptyString.


(** ** The dispatcher *)

Section Dispatcher.

(** The host's classes ([Ty]), values and implementations.  [issubclass]
    is Python's builtin on classes and [type] the builtin [type(arg)];
    [__name__] is the attribute [cls.__name__]. *)
Context {Ty : Type} `{Countable Ty}.
Context {Value Impl PyExc : Type}.
Context (issubclass : Ty → Ty → bool).
Context (type : Value → Ty).
Context (__name__ : Ty → string).

(** A signature, and the tuple [types] of a call. *)
Definition Sig : Type := list Ty.

(** What the module [conflict] exports: the linear order in which
    [resolve] probes the registered signatures, the ambiguous pairs, and
    the signature suggested for a pair.  They receive the dict [funcs]. *)
Context (conflict_ordering : PyDict.t Sig Impl → list Sig).
Context (ambiguities : PyDict.t Sig Impl → list (Sig * Sig)).
Context (super_signature : Sig * Sig → Sig).

(** [__slots__ = 'name', 'funcs', 'ordering', '_cache'].  A slot that
    was never assigned has no value: [ordering] is [None] until the
    first [add]. *)
Record Dispatcher : Type := mkDispatcher {
  name : string;
  funcs : PyDict.t Sig Impl;
  ordering : option (list Sig);
  _cache : gmap Sig Impl
}.

Inductive exn : Type :=
  | NotImplementedError
  | AttributeError (attr : string)
  | KeyError (key : Sig)
  | Exception (e : PyExc).

(** The observable probes of a method call. *)
Inductive event : Type :=
  | Visit (signature : Sig)       (* one turn of the scan loop of [resolve] *)
  | Query (cls classinfo : Ty)    (* one call of [issubclass] *)
  | Warn (message : string).      (* [warn(message, AmbiguityWarning)] *)

(** A method body: it reads and updates [self], returns or raises, and
    leaves a trace of probes. *)
Definition M (A : Type) : Type :=
  Dispatcher → outcome exn A * Dispatcher * list event.

#[local] Instance M_ret : MRet M := λ A a self, (Return a, self, []).

#[local] Instance M_bind : MBind M := λ A B k m self,
  match m self with
  | (Return a, self', tr) =>
      let '(r, self'', tr') := k a self' in (r, self'', tr ++ tr')
  | (Raise e, self', tr) => (Raise e, self', tr)
  end.

#[local] Instance M_throw : MThrow exn M := λ A e self, (Raise e, self, []).

Definition emit (ev : event) : M unit := λ self, (Return (), self, [ev]).

(** Attribute reads and the three dict updates the class performs. *)
Definition get_name : M string := λ self, (Return (name self), self, []).
Definition get_funcs : M (PyDict.t Sig Impl) :=
  λ self, (Return (funcs self), self, []).
Definition get_cache : M (gmap Sig Impl) :=
  λ self, (Return (_cache self), self, []).

Definition get_ordering : M (list Sig) := λ self,
  match ordering self with
  | Some o => (Return o, self, [])
  | None => (Raise (AttributeError "ordering"), self, [])
  end.

Definition set_ordering (o : list Sig) : M unit := λ self,
  (Return (),
   {| name := name self; funcs := funcs self;
      ordering := Some o; _cache := _cache self |}, []).

Definition funcs_setitem (signature : Sig) (func : Impl) : M unit := λ self,
  (Return (),
   {| name := name self; funcs := PyDict.set signature func (funcs self);
      ordering := ordering self; _cache := _cache self |}, []).

Definition funcs_getitem (signature : Sig) : M Impl := λ self,
  match PyDict.get signature (funcs self) with
  | Some f => (Return f, self, [])
  | None => (Raise (KeyError signature), self, [])
  end.

Definition cache_setitem (types : Sig) (func : Impl) : M unit := λ self,
  (Return (),
   {| name := name self; funcs := funcs self;
      ordering := ordering self; _cache := <[types := func]> (_cache self) |},
   []).

Definition cache_clear : M unit := λ self,
  (Return (),
   {| name := name self; funcs := funcs self;
      ordering := ordering self; _cache := ∅ |}, []).

(** [Dispatcher(name)].  [ordering] is not assigned. *)
Definition __init__ (name : string) : Dispatcher :=
  {| name := name; funcs := PyDict.empty; ordering := None; _cache := ∅ |}.

(** [str_signature(sig)] *)
Definition str_signature (sig : Sig) : string :=
  join ", " (__name__ <$> sig).

(** [warning_text(name, amb)] *)
Definition warning_text (name : string) (amb : list (Sig * Sig)) : string :=
  let text :=
    newline +:+ "Ambiguities exist in dispatched function " +:+ name
            +:+ newline +:+ newline in
  let text :=
    text +:+ "The following signatures may result in ambiguous behavior:"
         +:+ newline in
  let text :=
    foldl (λ text pair,
             text +:+ tab
                  +:+ join ", " ((λ s, "[" +:+ str_signature s +:+ "]")
                                   <$> [pair.1; pair.2])
                  +:+ newline)
          text amb in
  let text :=
    text +:+ newline +:+ newline
         +:+ "Consider making the following additions:"
         +:+ newline +:+ newline in
  text +:+ join (newline +:+ newline)
                ((λ s, "@dispatch(" +:+ str_signature (super_signature s)
                         +:+ ")" +:+ newline +:+ "def " +:+ name +:+ "(...)")
                   <$> amb).

(** [Dispatcher.add(signature, func)] *)
Definition add (signature : Sig) (func : Impl) : M unit :=
  funcs_setitem signature func ;;
  fs ← get_funcs ;
  set_ordering (conflict_ordering fs) ;;
  fs ← get_funcs ;
  let amb := ambiguities fs in
  (match amb with
   | [] => mret ()
   | _ :: _ => nm ← get_name ; emit (Warn (warning_text nm amb))
   end) ;;
  cache_clear.

(** [all(map(issubclass, types, signature))]: [map] over two sequences
    pairs them up to the shorter one and [all] stops at the first false
    answer. *)
Fixpoint all_issubclass (types signature : Sig) : M bool :=
  match types, signature with
  | t :: types', s :: signature' =>
      emit (Query t s) ;;
      if issubclass t s then all_issubclass types' signature' else mret false
  | _, _ => mret true
  end.

(** The loop [for signature in self.ordering: ...] of [resolve], ending in
    [raise NotImplementedError()]. *)
Fixpoint resolve_scan (types : Sig) (n : nat) (order : list Sig) : M Impl :=
  match order with
  | [] => mthrow NotImplementedError
  | signature :: rest =>
      emit (Visit signature) ;;
      matched ← (if Nat.eqb (length signature) n
                  then all_issubclass types signature else mret false) ;
      if (matched : bool) then
        result ← funcs_getitem signature ;
        cache_setitem types result ;;
        mret result
      else resolve_scan types n rest
  end.

(** [Dispatcher.resolve(types)] *)
Definition resolve (types : Sig) : M Impl :=
  cache ← get_cache ;
  match cache !! types with
  | Some cached => mret cached
  | None =>
      fs ← get_funcs ;
      match PyDict.get types fs with
      | Some func => cache_setitem types func ;; mret func
      | None =>
          let n := length types in
          order ← get_ordering ;
          resolve_scan types n order
      end
  end.

(** An implementation is an opaque callable: calling it with positional
    and keyword arguments is a method body of its own (it may return,
    raise, and call back into the dispatcher). *)
Context (invoke : Impl → list Value → list (string * Value) → M Value).

(** [Dispatcher.__call__]: [args] are the positional and [kwargs] the
    keyword arguments of the call. *)
Definition __call__ (args : list Value) (kwargs : list (string * Value))
  : M Value :=
  let types := type <$> args in
  func ← resolve types ;
  invoke func args kwargs.

(** [Dispatcher.register]: the decorator it returns, applied to [func],
    adds and hands back the dispatcher. *)
Definition get_self : M Dispatcher := λ self, (Return self, self, []).

Definition register (types : Sig) (func : Impl) : M Dispatcher :=
  add types func ;; get_self.

(** ** The pure content of resolution

    The definitions below say, without the monad, what [resolve]
    computes; the theorems relate the method bodies to them. *)

(** [with_cache self c] is [self] after its [_cache] became [c]. *)
Definition with_cache (self : Dispatcher) (c : gmap Sig Impl) : Dispatcher :=
  {| name := name self; funcs := funcs self;
     ordering := ordering self; _cache := c |}.

(** The answer of [all(map(issubclass, types, signature))]. *)
Fixpoint dominates (types signature : Sig) : bool :=
  match types, signature with
  | t :: types', s :: signature' => issubclass t s && dominates types' signature'
  | _, _ => true
  end.

(** The test of the scan loop:
    [len(signature) == n and all(map(issubclass, types, signature))]. *)
Definition matches (types : Sig) (signature : Sig) : bool :=
  Nat.eqb (length signature) (length types) && dominates types signature.

(** Resolution with the cache left aside: an exact signature first, then
    the first match of the ordering. *)
Definition resolve_fresh (self : Dispatcher) (types : Sig) : outcome exn Impl :=
  match PyDict.get types (funcs self) with
  | Some func => Return func
  | None =>
      match ordering self with
      | None => Raise (AttributeError "ordering")
      | Some order =>
          match List.find (matches types) order with
          | Some signature =>
              match PyDict.get signature (funcs self) with
              | Some result => Return result
              | None => Raise (KeyError signature)
              end
          | None => Raise NotImplementedError
          end
      end
  end.

(** [self] after a resolution of [types] that missed the cache and ended
    in [r]: a result is remembered, an exception leaves no entry. *)
Definition remember (self : Dispatcher) (types : Sig) (r : outcome exn Impl)
  : Dispatcher :=
  match r with
  | Return func => with_cache self (<[types := func]> (_cache self))
  | Raise _ => self
  end.

(** Every cache entry is what resolution without the cache would give. *)
Definition cache_coherent (self : Dispatcher) : Prop :=
  ∀ types cached,
    _cache self !! types = Some cached →
    resolve_fresh self types = Return cached.

(** The dispatchers a program can build: a new one, then any sequence of
    [add] and [resolve]. *)
Inductive reachable : Dispatcher → Prop :=
  | reachable_init nm :
      reachable (__init__ nm)
  | reachable_add self signature func r self' tr :
      reachable self →
      add signature func self = (r, self', tr) →
      reachable self'
  | reachable_resolve self types r self' tr :
      reachable self →
      resolve types self = (r, self', tr) →
      reachable self'.

(** [A] is strictly more specific than [B]: same length, pointwise
    subclass, and not the same signature. *)
Definition strictly_more_specific (A B : Sig) : bool :=
  Nat.eqb (length A) (length B) && dominates A B && bool_decide (A ≠ B).

(** Modelled from the spec: the invariant of [ordering] (the function
    [conflict.ordering] that computes it is not among the sources).  "For
    any two signatures A, B of equal length where A is strictly more
    specific than B, A appears before B", on positions of the list. *)
Definition linearizes (order : list Sig) : Prop :=
  ∀ i j A B,
    order !! i = Some A → order !! j = Some B →
    strictly_more_specific A B = true → i < j.

(** Modelled from the spec: [ordering] is "an ordered sequence of all
    registered Signatures": the keys of [funcs] and nothing else. *)
Definition covers (order : list Sig) (fs : PyDict.t Sig Impl) : Prop :=
  ∀ signature, signature ∈ order ↔ signature ∈ PyDict.keys fs.

End Dispatcher.

(** ** The module [conflict], modelled from the specification *)

Section Conflict.

Context {Ty : Type} `{EqDecision Ty} {Impl : Type}.
Context (issubclass : Ty → Ty → bool).
(** The classes of the host, and the root class [object]. *)
Context (universe : list Ty) (top : Ty).

(** [insert_before signature order] puts [signature] in front of the
    first signature it is strictly more specific than, and last when
    there is none. *)
Fixpoint insert_before (signature : Sig) (order : list Sig) : list Sig :=
  match order with
  | [] => [signature]
  | e :: rest =>
      if strictly_more_specific issubclass signature e
      then signature :: e :: rest
      else e :: insert_before signature rest
  end.

(** Modelled from the spec: [conflict.ordering], which is not among the
    sources.  "A stable topological linearization so that, among
    signatures with no enforced precedence between them,
    earlier-registered signatures are probed first": the signatures are
    placed one by one in the order of registration. *)
Definition stable_ordering (fs : PyDict.t Sig Impl) : list Sig :=
  foldl (λ order signature, insert_before signature order) [] (PyDict.keys fs).

(** Some class is a subclass of both [a] and [b]. *)
Definition consistent (a b : Ty) : bool :=
  existsb (λ t, issubclass t a && issubclass t b) universe.

Definition ambiguous (A B : Sig) : bool :=
  Nat.eqb (length A) (length B)
  && bool_decide (A ≠ B)
  && negb (dominates issubclass A B) && negb (dominates issubclass B A)
  && forallb (λ ab : Ty * Ty, consistent ab.1 ab.2) (zip A B).

Fixpoint unordered_pairs {X : Type} (l : list X) : list (X * X) :=
  match l with
  | [] => []
  | x :: rest => (pair x <$> rest) ++ unordered_pairs rest
  end.

(** Modelled from the spec: [conflict.ambiguities], which is not among
    the sources.  The unordered pairs of registered signatures of equal
    length, neither below the other, that are consistent at every
    position. *)
Definition spec_ambiguities (fs : PyDict.t Sig Impl) : list (Sig * Sig) :=
  List.filter (λ AB : Sig * Sig, ambiguous AB.1 AB.2)
              (unordered_pairs (PyDict.keys fs)).

(** The least class above both [a] and [b], [object] when the host has
    none. *)
Definition least_upper_bound (a b : Ty) : Ty :=
  default top
    (List.find
       (λ u, issubclass a u && issubclass b u
             && forallb (λ v, implb (issubclass a v && issubclass b v)
                                    (issubclass u v)) universe)
       universe).

(** Modelled from the spec: [conflict.super_signature], which is not
    among the sources.  "The least upper bound of A[i] and B[i] under the
    subtype relation, per position". *)
Definition spec_super_signature (pair : Sig * Sig) : Sig :=
  zip_with least_upper_bound pair.1 pair.2.

End Conflict.

(** ** A second ordering the specification allows *)

Section EarliestFirst.

Context {Ty : Type} `{EqDecision Ty} {Impl : Type}.
Context (issubclass : Ty → Ty → bool).

(** No signature still to be placed is strictly more specific than
    [signature]. *)
Definition unblocked (remaining : list Sig) (signature : Sig) : bool :=
  forallb (λ other, negb (strictly_more_specific issubclass other signature))
          remaining.

(** [earliest_first fuel remaining] places, one at a time, the earliest
    registered signature that is unblocked.  When none is (a cycle, which
    a partial order excludes) the rest keeps the order of registration. *)
Fixpoint earliest_first (fuel : nat) (remaining : list Sig) : list Sig :=
  match fuel with
  | 0 => []
  | S fuel' =>
      match List.find (unblocked remaining) remaining with
      | Some signature =>
          signature :: earliest_first fuel' (filter (λ s, s ≠ signature) remaining)
      | None => remaining
      end
  end.

(** Modelled from the spec: [conflict.ordering], which is not among the
    sources, read the other way.  "A stable topological linearization so
    that, among signatures with no enforced precedence between them,
    earlier-registered signatures are probed first": at every step the
    earliest registered signature that nothing left must precede is
    probed next. *)
Definition earliest_first_ordering (fs : PyDict.t Sig Impl) : list Sig :=
  earliest_first (length (PyDict.keys fs)) (PyDict.keys fs).

End EarliestFirst.

(** ** The rest of the class, and what a trace shows *)

Section Rendering.

Context {Ty : Type} `{Countable Ty} {Impl : Type}.

(** [Dispatcher.__str__], which is also [__repr__]. *)
Definition __str__ (self : Dispatcher (Ty:=Ty) (Impl:=Impl)) : string :=
  "<dispatched " +:+ name self +:+ ">".

(** The signatures the scan loop visited, in the order of the visits. *)
Definition visits (tr : list (event (Ty:=Ty))) : list (Sig (Ty:=Ty)) :=
  omap (λ ev, match ev with Visit signature => Some signature | _ => None end)
       tr.

(** The calls of [issubclass], as pairs (class, classinfo). *)
Definition queries (tr : list (event (Ty:=Ty))) : list (Ty * Ty) :=
  omap (λ ev, match ev with Query c k => Some (c, k) | _ => None end) tr.

End Rendering.

(** ** The method dispatcher *)

Module MethodDispatcher.
Section MethodDispatcher.

Context {Ty : Type} `{Countable Ty}.
Context {Value Impl PyExc : Type}.
Context (issubclass : Ty → Ty → bool).
Context (type : Value → Ty).

(** The method bodies of [Dispatcher]. *)
Local Abbreviation Inherited := (M (Ty:=Ty) (Impl:=Impl) (PyExc:=PyExc)).

(** [class MethodDispatcher(Dispatcher)]: the slots of [Dispatcher] and,
    the subclass declaring no slots, the attributes [obj] and [cls] that
    [__get__] assigns.  Neither exists before the first [__get__]. *)
Record t : Type := mk {
  dispatcher : Dispatcher (Ty:=Ty) (Impl:=Impl);
  obj : option Value;
  cls : option Ty
}.

(** A method body of the subclass. *)
Definition M (A : Type) : Type :=
  t → outcome (exn (Ty:=Ty) (PyExc:=PyExc)) A * t * list (event (Ty:=Ty)).

#[local] Instance M_ret : MRet M := λ A a self, (Return a, self, []).

#[local] Instance M_bind : MBind M := λ A B k m self,
  match m self with
  | (Return a, self', tr) =>
      let '(r, self'', tr') := k a self' in (r, self'', tr ++ tr')
  | (Raise e, self', tr) => (Raise e, self', tr)
  end.

(** An inherited method runs on the inherited slots. *)
Definition inherited {A : Type} (m : Inherited A) : M A :=
  λ self,
    let '(r, d, tr) := m (dispatcher self) in
    (r, {| dispatcher := d; obj := obj self; cls := cls self |}, tr).

Definition get_obj : M Value := λ self,
  match obj self with
  | Some instance => (Return instance, self, [])
  | None => (Raise (AttributeError "obj"), self, [])
  end.

(** [MethodDispatcher.__get__(instance, owner)] *)
Definition __get__ (instance : Value) (owner : Ty) : M t := λ self,
  let self' := {| dispatcher := dispatcher self;
                  obj := Some instance; cls := Some owner |} in
  (Return self', self', []).

(** What calling an implementation does to a method dispatcher. *)
Context (invoke : Impl → list Value → list (string * Value) → M Value).

(** [MethodDispatcher.__call__]: the receiver [self.obj] goes in front of
    the positional arguments. *)
Definition __call__ (args : list Value) (kwargs : list (string * Value))
  : M Value :=
  let types := type <$> args in
  func ← inherited (resolve issubclass types) ;
  receiver ← get_obj ;
  invoke func (receiver :: args) kwargs.

End MethodDispatcher.
End MethodDispatcher.

(** ** A small host: numbers and text *)

Module Host.

Inductive PyType : Type := object | Number | Integer | Boolean | Text.

#[global] Instance PyType_eq_dec : EqDecision PyType.
Proof. solve_decision. Defined.

Definition PyType_code (c : PyType) : nat :=
  match c with
  | object => 0 | Number => 1 | Integer => 2 | Boolean => 3 | Text => 4
  end.

Definition PyType_of_code (n : nat) : PyType :=
  match n with
  | 0 => object | 1 => Number | 2 => Integer | 3 => Boolean | _ => Text
  end.

#[global] Instance PyType_countable : Countable PyType.
Proof.
  apply (inj_countable' PyType_code PyType_of_code). by intros [].
Defined.

(** [class Number(object)], [class Integer(Number)],
    [class Boolean(Integer)], [class Text(object)]. *)
Definition issubclass (cls classinfo : PyType) : bool :=
  match cls, classinfo with
  | _, object => true
  | (Number | Integer | Boolean), Number => true
  | (Integer | Boolean), Integer => true
  | Boolean, Boolean => true
  | Text, Text => true
  | _, _ => false
  end.

Definition universe : list PyType := [object; Number; Integer; Boolean; Text].

Definition __name__ (c : PyType) : string :=
  match c with
  | object => "object" | Number => "Number" | Integer => "Integer"
  | Boolean => "Boolean" | Text => "Text"
  end.

Inductive PyValue : Type :=
  | VInteger (z : Z)
  | VBoolean (b : bool)
  | VText (s : string).

Definition type (v : PyValue) : PyType :=
  match v with
  | VInteger _ => Integer
  | VBoolean _ => Boolean
  | VText _ => Text
  end.

(** Three implementations: [inc(x, by=1)] returns [x + by], [dec(x)]
    returns [x - 1], and [shout(s)] always raises. *)
Inductive PyFunc : Type := inc | dec | shout.

(** The exceptions of the implementations, by name. *)
Definition PyExc : Type := string.

Definition apply (f : PyFunc) (args : list PyValue)
    (kwargs : list (string * PyValue)) : outcome (exn (Ty:=PyType) (PyExc:=PyExc)) PyValue :=
  match f, args with
  | inc, [VInteger x] =>
      match kwargs with
      | [] => Return (VInteger (x + 1))
      | [(kw, VInteger step)] =>
          if decide (kw = "by") then Return (VInteger (x + step))
          else Raise (Exception "TypeError")
      | _ => Raise (Exception "TypeError")
      end
  | dec, [VInteger x] =>
      match kwargs with
      | [] => Return (VInteger (x - 1))
      | _ => Raise (Exception "TypeError")
      end
  | shout, _ => Raise (Exception "ValueError")
  | _, _ => Raise (Exception "TypeError")
  end.

Abbreviation Dispatcher := (Dispatcher (Ty:=PyType) (Impl:=PyFunc)).
Abbreviation M := (M (Ty:=PyType) (Impl:=PyFunc) (PyExc:=PyExc)).

(** The implementations here do not touch the dispatcher. *)
Definition invoke (f : PyFunc) (args : list PyValue)
    (kwargs : list (string * PyValue)) : M PyValue :=
  λ self, (apply f args kwargs, self, []).

Definition ordering := stable_ordering (Impl:=PyFunc) issubclass.
Definition ambiguities := spec_ambiguities (Impl:=PyFunc) issubclass universe.
Definition super_signature := spec_super_signature issubclass universe object.

Definition add := add (PyExc:=PyExc) __name__ ordering ambiguities super_signature.
Definition resolve := resolve (Impl:=PyFunc) (PyExc:=PyExc) issubclass.
Definition __call__ := __call__ issubclass type invoke.
Abbreviation reachable :=
  (reachable (PyExc:=PyExc) issubclass __name__ ordering ambiguities
             super_signature).

(** [f = Dispatcher('f'); f.add((Number,), dec)] *)
Definition f1 : Dispatcher := (add [Number] dec (__init__ "f")).1.2.

(** ... then [f.resolve((Boolean,))], which fills the cache ... *)
Definition f2 : Dispatcher := (resolve [Boolean] f1).1.2.

(** ... then [f.add((Integer,), inc)]. *)
Definition f3 : Dispatcher := (add [Integer] inc f2).1.2.

(** [g = Dispatcher('g'); g.add((Text,), shout); g.add((Number,), dec)] *)
Definition g2 : Dispatcher :=
  (add [Number] dec (add [Text] shout (__init__ "g")).1.2).1.2.

(** [h = Dispatcher('h'); h.add((Number, Number), dec);
    h.add((Integer,), inc)]: signatures of two lengths. *)
Definition h2 : Dispatcher :=
  (add [Integer] inc (add [Number; Number] dec (__init__ "h")).1.2).1.2.

(** The same names as methods: [inc(self, x)] returns [self + x],
    [dec(self, x)] returns [self - x], and [shout] always raises. *)
Definition apply_method (f : PyFunc) (args : list PyValue)
    (kwargs : list (string * PyValue))
  : outcome (exn (Ty:=PyType) (PyExc:=PyExc)) PyValue :=
  match f, args, kwargs with
  | inc, [VInteger me; VInteger x], [] => Return (VInteger (me + x))
  | dec, [VInteger me; VInteger x], [] => Return (VInteger (me - x))
  | shout, _, _ => Raise (Exception "ValueError")
  | _, _, _ => Raise (Exception "TypeError")
  end.

Definition invoke_method (f : PyFunc) (args : list PyValue)
    (kwargs : list (string * PyValue))
  : MethodDispatcher.M (Ty:=PyType) (Value:=PyValue) (Impl:=PyFunc)
      (PyExc:=PyExc) PyValue :=
  λ self, (apply_method f args kwargs, self, []).

Definition method_call :=
  MethodDispatcher.__call__ issubclass type invoke_method.

(** A method dispatcher with the registrations of [f3], not yet read
    through any instance. *)
Definition m3 : MethodDispatcher.t (Ty:=PyType) (Value:=PyValue) (Impl:=PyFunc) :=
  {| MethodDispatcher.dispatcher := f3;
     MethodDispatcher.obj := None; MethodDispatcher.cls := None |}.

End Host.

(** ** The small host under the second ordering *)

Module HostEarliest.

Definition ordering :=
  earliest_first_ordering (Impl:=Host.PyFunc) Host.issubclass.
Definition add :=
  add (PyExc:=Host.PyExc) Host.__name__ ordering Host.ambiguities
      Host.super_signature.

(** [k = Dispatcher('k'); k.add((Number, object), dec);
    k.add((object, Number), shout)]: two signatures neither of which is
    below the other. *)
Definition k2 : Host.Dispatcher :=
  (add [Host.object; Host.Number] Host.shout
     (add [Host.Number; Host.object] Host.dec (__init__ "k")).1.2).1.2.

(** ... then [k.resolve((Boolean, Boolean))], which fills the cache ... *)
Definition k3 : Host.Dispatcher :=
  (Host.resolve [Host.Boolean; Host.Boolean] k2).1.2.

(** ... then [k.add((Integer, object), inc)]. *)
Definition k4 : Host.Dispatcher :=
  (add [Host.Integer; Host.object] Host.inc k3).1.2.

End HostEarliest.

(** ** Facts about dicts *)

Section PyDictFacts.
Context {K V : Type} `{EqDecision K}.
Implicit Types (k : K) (v : V) (d : PyDict.t K V).
Import PyDict.

Lemma get_set_eq k v d : get k (set k v d) = Some v.
Proof.
  induction d as [|[k' v'] r IH]; simpl.
  - by rewrite decide_True.
  - destruct (decide (k = k')) as [->|Hne]; simpl.
    + by rewrite decide_True.
    + by rewrite decide_False.
Qed.

Lemma get_set_ne k k' v d : k ≠ k' → get k' (set k v d) = get k' d.
Proof.
  intros Hne. induction d as [|[k0 v0] r IH]; simpl.
  - by rewrite decide_False.
  - destruct (decide (k = k0)) as [->|Hk]; simpl.
    + by rewrite !decide_False.
    + destruct (decide (k' = k0)); [done | apply IH].
Qed.

Lemma get_Some_keys k v d : get k d = Some v → k ∈ keys d.
Proof.
  unfold keys. induction d as [|[k' v'] r IH]; simpl; [done |].
  destruct (decide (k = k')) as [->|Hne]; intros Hg.
  - apply list_elem_of_here.
  - apply list_elem_of_further. by apply IH.
Qed.

Lemma keys_get_Some k d : k ∈ keys d → is_Some (get k d).
Proof.
  unfold keys. induction d as [|[k' v'] r IH]; simpl.
  - intros Hin. by apply not_elem_of_nil in Hin.
  - intros Hin. destruct (decide (k = k')) as [->|Hne]; [by eexists |].
    apply IH. apply elem_of_cons in Hin as [?|?]; [done | done].
Qed.

Lemma get_None_keys k d : get k d = None ↔ k ∉ keys d.
Proof.
  split.
  - intros Hg Hin. apply keys_get_Some in Hin as [v Hv]. congruence.
  - intros Hnin. destruct (get k d) as [v|] eqn:Hg; [|done].
    by apply get_Some_keys in Hg.
Qed.

Lemma keys_set k v d :
  keys (set k v d) = if contains k d then keys d else keys d ++ [k].
Proof.
  unfold contains, keys. induction d as [|[k' v'] r IH]; [done |].
  cbn [set get]. destruct (decide (k = k')) as [->|Hne]; [done |].
  rewrite !fmap_cons, IH. by destruct (get k r).
Qed.

End PyDictFacts.

(** ** The method bodies and their pure content *)

Section Properties.

Context {Ty : Type} `{Countable Ty}.
Context {Value Impl PyExc : Type}.
Context (issubclass : Ty → Ty → bool).
Context (type : Value → Ty).
Context (__name__ : Ty → string).
Context (conflict_ordering : PyDict.t (Sig (Ty:=Ty)) Impl → list (Sig (Ty:=Ty))).
Context (ambiguities : PyDict.t (Sig (Ty:=Ty)) Impl → list (Sig (Ty:=Ty) * Sig (Ty:=Ty))).
Context (super_signature : Sig (Ty:=Ty) * Sig (Ty:=Ty) → Sig (Ty:=Ty)).

Local Abbreviation Dispatcher := (Dispatcher (Ty:=Ty) (Impl:=Impl)).
Local Abbreviation exn := (exn (Ty:=Ty) (PyExc:=PyExc)).
Local Abbreviation resolve := (resolve (Impl:=Impl) (PyExc:=PyExc) issubclass).
Local Abbreviation resolve_scan :=
  (resolve_scan (Impl:=Impl) (PyExc:=PyExc) issubclass).
Local Abbreviation all_issubclass :=
  (all_issubclass (Impl:=Impl) (PyExc:=PyExc) issubclass).
Local Abbreviation resolve_fresh :=
  (resolve_fresh (Impl:=Impl) (PyExc:=PyExc) issubclass).
Local Abbreviation cache_coherent :=
  (cache_coherent (Impl:=Impl) (PyExc:=PyExc) issubclass).
Local Abbreviation dominates := (dominates issubclass).
Local Abbreviation matches := (matches issubclass).
Local Abbreviation add :=
  (add (PyExc:=PyExc) __name__ conflict_ordering ambiguities super_signature).
Local Abbreviation reachable :=
  (reachable (PyExc:=PyExc) issubclass __name__ conflict_ordering
             ambiguities super_signature).

Implicit Types (self : Dispatcher) (types signature : Sig (Ty:=Ty)).
Implicit Types (func cached : Impl) (r : outcome exn Impl) (e : exn).

(** Unfolds the monad and the attribute accesses of a method body. *)
Ltac run :=
  unfold mbind, mret, mthrow, M_bind, M_ret, M_throw, emit, get_name,
    get_funcs, get_cache, get_ordering, set_ordering, funcs_setitem,
    funcs_getitem, cache_setitem, cache_clear; cbn beta iota.

Lemma all_issubclass_run types signature self :
  ∃ tr, all_issubclass types signature self
        = (Return (dominates types signature), self, tr).
Proof.
  revert signature. induction types as [|t types IH]; intros [|s signature];
    cbn [all_issubclass dominates]; run;
    try (by eexists).
  destruct (issubclass t s); cbn [andb].
  - destruct (IH signature) as [tr ->]. by eexists.
  - by eexists.
Qed.

Lemma resolve_scan_run types order self :
  ∃ tr,
    resolve_scan types (length types) order self
    = (let r : outcome exn Impl :=
         match List.find (matches types) order with
         | Some signature =>
             match PyDict.get signature (funcs self) with
             | Some result => Return result
             | None => Raise (KeyError signature)
             end
         | None => Raise NotImplementedError
         end in
       (r, remember self types r, tr)).
Proof.
  induction order as [|signature rest IH];
    cbn [resolve_scan List.find]; run; [by eexists |].
  unfold matches.
  destruct (Nat.eqb (length signature) (length types)); cbn [andb].
  - destruct (all_issubclass_run types signature self) as [tr ->].
    destruct (dominates types signature).
    + destruct (PyDict.get signature (funcs self)); by eexists.
    + destruct IH as [tr' ->]. by eexists.
  - destruct IH as [tr' ->]. by eexists.
Qed.

Lemma resolve_hit types cached self :
  _cache self !! types = Some cached →
  resolve types self = (Return cached, self, []).
Proof. intros Hc. unfold resolve. run. by rewrite Hc. Qed.

Lemma resolve_miss types self :
  _cache self !! types = None →
  ∃ tr, resolve types self
        = (resolve_fresh self types,
           remember self types (resolve_fresh self types), tr).
Proof.
  intros Hc. unfold resolve, resolve_fresh. run.
  rewrite Hc. destruct (PyDict.get types (funcs self)) as [func|]; [by eexists |].
  destruct (ordering self) as [order|]; [| by eexists].
  destruct (resolve_scan_run types order self) as [tr ->]. by eexists.
Qed.

Lemma resolve_fresh_with_cache self c types :
  resolve_fresh (with_cache self c) types = resolve_fresh self types.
Proof. reflexivity. Qed.

Lemma resolve_fresh_remember self types r types' :
  resolve_fresh (remember self types r) types' = resolve_fresh self types'.
Proof. by destruct r. Qed.

(** What [add] does to the object and what it logs. *)
Lemma add_run signature func self :
  let fs := PyDict.set signature func (funcs self) in
  add signature func self
  = (Return (),
     {| name := name self; funcs := fs;
        ordering := Some (conflict_ordering fs); _cache := ∅ |},
     match ambiguities fs with
     | [] => []
     | _ :: _ =>
         [Warn (warning_text __name__ super_signature (name self)
                             (ambiguities fs))]
     end).
Proof.
  unfold add. run. cbn [funcs name].
  by destruct (ambiguities (PyDict.set signature func (funcs self))).
Qed.

(** One step of [resolve] keeps the registry and the ordering and changes
    the cache at [types] at most. *)
Lemma resolve_step types self r self' tr :
  resolve types self = (r, self', tr) →
  self' = self ∨
  (_cache self !! types = None ∧ r = resolve_fresh self types
   ∧ self' = remember self types r).
Proof.
  intros Hr. destruct (_cache self !! types) as [cached|] eqn:Hc.
  - rewrite (resolve_hit _ _ _ Hc) in Hr. left. congruence.
  - destruct (resolve_miss _ _ Hc) as [tr' Hm]. rewrite Hm in Hr.
    right. split; [done |]. split; congruence.
Qed.

Lemma resolve_keeps_coherent types self r self' tr :
  cache_coherent self →
  resolve types self = (r, self', tr) →
  cache_coherent self'.
Proof.
  intros Hcoh Hr. destruct (resolve_step _ _ _ _ _ Hr) as [->|(Hc & Hfresh & ->)];
    [done |].
  intros types' cached'. rewrite resolve_fresh_remember.
  destruct r as [func|e]; cbn [remember with_cache _cache]; [| apply Hcoh].
  destruct (decide (types = types')) as [<-|Hne].
  - rewrite lookup_insert_eq. congruence.
  - rewrite lookup_insert_ne by done. apply Hcoh.
Qed.

Lemma reachable_after_add self signature func :
  reachable self → reachable (add signature func self).1.2.
Proof.
  intros Hreach. destruct (add signature func self) as [[r self'] tr] eqn:Hadd.
  by eapply reachable_add.
Qed.

Lemma reachable_after_resolve self types :
  reachable self → reachable (resolve types self).1.2.
Proof.
  intros Hreach. destruct (resolve types self) as [[r self'] tr] eqn:Hres.
  by eapply reachable_resolve.
Qed.

(** The cache of a reachable dispatcher never disagrees with a fresh
    resolution: registration clears it, resolution fills it with fresh
    answers. *)
Lemma reachable_coherent self : reachable self → cache_coherent self.
Proof.
  induction 1 as [nm | self signature func r self' tr _ _ Hadd
                 | self types r self' tr _ IH Hres].
  - intros types cached. cbn. by rewrite lookup_empty.
  - rewrite add_run in Hadd. injection Hadd as _ <- _.
    intros types cached. cbn [_cache]. by rewrite lookup_empty.
  - by eapply resolve_keeps_coherent.
Qed.

(** On a reachable dispatcher the cache is transparent: [resolve] answers
    what a fresh resolution answers. *)
Lemma resolve_reachable types self :
  reachable self →
  ∃ self' tr, resolve types self = (resolve_fresh self types, self', tr).
Proof.
  intros Hreach. destruct (_cache self !! types) as [cached|] eqn:Hc.
  - rewrite (resolve_hit _ _ _ Hc).
    rewrite (reachable_coherent _ Hreach _ _ Hc). by do 2 eexists.
  - destruct (resolve_miss _ _ Hc) as [tr ->]. by do 2 eexists.
Qed.

(** [List.find] returns the first element that passes the test. *)
Lemma find_first {X : Type} (p : X → bool) (l : list X) (x : X) :
  List.find p l = Some x →
  ∃ j, l !! j = Some x ∧ p x = true
       ∧ ∀ i y, i < j → l !! i = Some y → p y = false.
Proof.
  induction l as [|a l IH]; cbn [List.find]; [done |].
  destruct (p a) eqn:Hpa.
  - intros [= ->]. exists 0. repeat split; [done |]. intros i y Hi. lia.
  - intros Hf. destruct (IH Hf) as (j & Hj & Hpx & Hbefore).
    exists (S j). repeat split; [done.. |].
    intros [|i] y Hi; cbn; [congruence |]. apply Hbefore. lia.
Qed.

Lemma find_prefix {X : Type} (p : X → bool) (pre post : list X) (x : X) :
  (∀ y, y ∈ pre → p y = false) → p x = true →
  List.find p (pre ++ x :: post) = Some x.
Proof.
  intros Hpre Hx. induction pre as [|a pre IH]; cbn [app List.find].
  - by rewrite Hx.
  - rewrite (Hpre a) by apply list_elem_of_here.
    apply IH. intros y Hy. apply Hpre. by apply list_elem_of_further.
Qed.

Lemma find_absent {X : Type} (p : X → bool) (l : list X) :
  (∀ y, y ∈ l → p y = false) → List.find p l = None.
Proof.
  intros Hl. induction l as [|a l IH]; cbn [List.find]; [done |].
  rewrite (Hl a) by apply list_elem_of_here.
  apply IH. intros y Hy. apply Hl. by apply list_elem_of_further.
Qed.

(** ** Resolution *)

(** C1.  [resolve(types)] follows the three steps of the resolver.
    (1) When [types] is a key of the cache, the cached implementation is
    returned and nothing changes.  (2) Otherwise, when [types] is itself
    a registered signature, its implementation is stored in the cache
    under [types] and returned, wherever the signature stands in the
    ordering.  (3) Otherwise the ordering is scanned from the front: the
    first signature of the length of [types] that pointwise dominates it
    has its implementation stored under [types] and returned. *)
Theorem resolve_algorithm types self :
  (∀ cached,
      _cache self !! types = Some cached →
      resolve types self = (Return cached, self, []))
  ∧ (∀ func,
      _cache self !! types = None →
      PyDict.get types (funcs self) = Some func →
      resolve types self
      = (Return func, with_cache self (<[types := func]> (_cache self)), []))
  ∧ (∀ order before signature after result,
      _cache self !! types = None →
      PyDict.get types (funcs self) = None →
      ordering self = Some order →
      order = before ++ signature :: after →
      (∀ earlier, earlier ∈ before →
                  length earlier = length types →
                  dominates types earlier = false) →
      length signature = length types →
      dominates types signature = true →
      PyDict.get signature (funcs self) = Some result →
      ∃ tr, resolve types self
            = (Return result,
               with_cache self (<[types := result]> (_cache self)), tr)).
Proof.
  split; [| split].
  - intros cached Hc. by apply resolve_hit.
  - intros func Hc Hf. unfold resolve. run. by rewrite Hc, Hf.
  - intros order before signature after result Hc Hf Ho -> Hbefore Hlen Hdom Hres.
    destruct (resolve_miss _ _ Hc) as [tr ->]. exists tr.
    unfold resolve_fresh. rewrite Hf, Ho.
    rewrite (find_prefix _ before after signature).
    + by rewrite Hres.
    + intros earlier Hin. unfold matches.
      destruct (Nat.eqb (length earlier) (length types)) eqn:Hl; [| done].
      apply Nat.eqb_eq in Hl. cbn [andb]. by apply Hbefore.
    + unfold matches. rewrite Hlen, Nat.eqb_refl. by rewrite Hdom.
Qed.

(** C2.  On a dispatcher that was just constructed (an empty registry)
    [resolve] does not raise [NotImplementedError]: the slot [ordering]
    was never assigned and reading it raises [AttributeError]. *)
Theorem resolve_empty_registry nm types :
  resolve types (__init__ nm)
  = (Raise (AttributeError "ordering"), __init__ nm, []).
Proof.
  unfold resolve, __init__. run. cbn. by rewrite lookup_empty.
Qed.

(** Once [ordering] is assigned (after the first [add]), a tuple that is
    in neither table and that no signature of the ordering matches makes
    [resolve] raise [NotImplementedError]. *)
Lemma resolve_no_match types self order :
  _cache self !! types = None →
  PyDict.get types (funcs self) = None →
  ordering self = Some order →
  (∀ signature, signature ∈ order → matches types signature = false) →
  ∃ tr, resolve types self = (Raise NotImplementedError, self, tr).
Proof.
  intros Hc Hf Ho Hnone. destruct (resolve_miss _ _ Hc) as [tr ->].
  exists tr. unfold resolve_fresh. rewrite Hf, Ho.
  by rewrite (find_absent _ _ Hnone).
Qed.

(** The same on a reachable dispatcher, where the cache cannot hide a
    match: when no signature of the ordering matches [types] and [types]
    is not registered, [resolve] raises [NotImplementedError]. *)
Lemma resolve_no_match_reachable types self order :
  reachable self →
  PyDict.get types (funcs self) = None →
  ordering self = Some order →
  (∀ signature, signature ∈ order → matches types signature = false) →
  ∃ tr, resolve types self = (Raise NotImplementedError, self, tr).
Proof.
  intros Hreach Hf Ho Hnone.
  destruct (_cache self !! types) as [cached|] eqn:Hc.
  - apply (reachable_coherent _ Hreach) in Hc. revert Hc.
    unfold resolve_fresh. rewrite Hf, Ho.
    by rewrite (find_absent _ _ Hnone).
  - by eapply resolve_no_match.
Qed.

(** On a reachable dispatcher [ordering] is unset exactly as long as the
    registry is empty, and is otherwise the ordering computed from the
    registry as it is. *)
Lemma reachable_ordering self :
  reachable self →
  match ordering self with
  | None => funcs self = []
  | Some order => order = conflict_ordering (funcs self) ∧ funcs self ≠ []
  end.
Proof.
  induction 1 as [nm | self signature func r self' tr _ _ Hadd
                 | self types r self' tr _ IH Hres].
  - done.
  - rewrite add_run in Hadd. injection Hadd as _ <- _. cbn [ordering funcs].
    split; [done |]. by destruct (funcs self) as [|[k v] rest]; cbn;
      [| destruct (decide (signature = k))].
  - destruct (resolve_step _ _ _ _ _ Hres) as [->|(_ & _ & ->)]; [done |].
    by destruct r.
Qed.

(** So the empty registry is the only state in which a tuple without a
    match escapes [NotImplementedError]: on a reachable dispatcher that
    has a registration, when the computed ordering lists registered
    signatures only, [issubclass] is reflexive and no registered
    signature matches [types], [resolve] raises [NotImplementedError]. *)
Lemma resolve_no_match_registered types self :
  reachable self →
  funcs self ≠ [] →
  (∀ signature, signature ∈ conflict_ordering (funcs self) →
                signature ∈ PyDict.keys (funcs self)) →
  (∀ c, issubclass c c = true) →
  (∀ signature, signature ∈ PyDict.keys (funcs self) →
                matches types signature = false) →
  ∃ tr, resolve types self = (Raise NotImplementedError, self, tr).
Proof.
  intros Hreach Hne Hsub Hrefl Hnone.
  pose proof (reachable_ordering _ Hreach) as Hord.
  destruct (ordering self) as [order|] eqn:Ho; [| done].
  destruct Hord as [-> _].
  eapply resolve_no_match_reachable; [done | | done |].
  - apply get_None_keys. intros Hin. specialize (Hnone _ Hin).
    unfold matches in Hnone. rewrite Nat.eqb_refl in Hnone. cbn [andb] in Hnone.
    assert (dominates types types = true); [| congruence].
    clear -Hrefl. induction types as [|t types IH]; cbn [dominates]; [done |].
    by rewrite Hrefl, IH.
  - intros signature Hin. by apply Hnone, Hsub.
Qed.

(** C3.  [add(signature, func)] always returns.  Afterwards the registry
    maps [signature] to [func] and every other signature as before, the
    ordering is the one computed from the registry as it now is, the
    cache is empty, and [warn] was called if and only if the ambiguities
    computed from the registry as it now is are not empty. *)
Theorem add_postcondition signature func self :
  ∃ self' tr,
    add signature func self = (Return (), self', tr)
    ∧ PyDict.get signature (funcs self') = Some func
    ∧ (∀ other, other ≠ signature →
                PyDict.get other (funcs self')
                = PyDict.get other (funcs self))
    ∧ ordering self' = Some (conflict_ordering (funcs self'))
    ∧ ((∃ message, Warn message ∈ tr) ↔ ambiguities (funcs self') ≠ [])
    ∧ _cache self' = ∅.
Proof.
  rewrite add_run. do 2 eexists. split; [reflexivity |]. cbn [funcs ordering _cache].
  split; [apply get_set_eq |].
  split; [intros other Hne; by apply get_set_ne |].
  split; [done |]. split; [| done].
  destruct (ambiguities (PyDict.set signature func (funcs self))) as [|p amb].
  - split; [| done]. intros [message Hin]. by apply not_elem_of_nil in Hin.
  - split; [done |]. intros _. eexists. apply list_elem_of_here.
Qed.

(** C6.  When [resolve(types)] returns an implementation, resolving the
    same tuple again, with nothing registered in between, returns the
    same implementation, leaves the dispatcher as it is, and its trace is
    empty: no turn of the scan loop and no call of [issubclass]. *)
Theorem cache_transparency types self func self1 tr :
  resolve types self = (Return func, self1, tr) →
  resolve types self1 = (Return func, self1, []).
Proof.
  intros Hr. destruct (resolve_step _ _ _ _ _ Hr) as [->|(Hc & Hfresh & ->)].
  - destruct (_cache self !! types) as [cached|] eqn:Hc.
    + rewrite (resolve_hit _ _ _ Hc) in Hr. injection Hr as ->.
      by apply resolve_hit.
    + destruct (resolve_miss _ _ Hc) as [tr' Hm]. rewrite Hm in Hr.
      injection Hr as Hfresh Hself _. rewrite Hfresh in Hself.
      apply resolve_hit. rewrite <- Hself at 1.
      cbn [remember with_cache _cache]. apply lookup_insert_eq.
  - apply resolve_hit. cbn [remember with_cache _cache]. apply lookup_insert_eq.
Qed.

(** C9.  When [resolve(types)] raises, the dispatcher, and so its cache,
    is exactly as before the call. *)
Theorem failed_resolve_is_atomic types self e self' tr :
  resolve types self = (Raise e, self', tr) →
  self' = self.
Proof.
  intros Hr. by destruct (resolve_step _ _ _ _ _ Hr) as [->|(_ & _ & ->)].
Qed.

(** C5.  On a reachable dispatcher whose registry holds both [(Number,)]
    and [(Integer,)], with [Integer] a subclass of [Number], resolving
    [(Integer,)] returns the implementation registered for [(Integer,)]. *)
Theorem specificity_wins (Number Integer : Ty) self f_number f_integer :
  reachable self →
  issubclass Integer Number = true →
  PyDict.get [Number] (funcs self) = Some f_number →
  PyDict.get [Integer] (funcs self) = Some f_integer →
  ∃ self' tr, resolve [Integer] self = (Return f_integer, self', tr).
Proof.
  intros Hreach _ _ Hint.
  destruct (resolve_reachable [Integer] _ Hreach) as (self' & tr & ->).
  exists self', tr. unfold resolve_fresh. unfold Sig in *. by rewrite Hint.
Qed.

(** C7.  On a reachable dispatcher, whatever [issubclass] answers, an
    implementation returned by [resolve(types)] is the one registered
    under a signature of the length of [types]: either [types] itself,
    or the first signature of the ordering that has that length and
    dominates [types]. *)
Theorem arity_isolation types self func self' tr :
  reachable self →
  resolve types self = (Return func, self', tr) →
  ∃ signature,
    PyDict.get signature (funcs self) = Some func
    ∧ length signature = length types
    ∧ (signature = types
       ∨ ∃ order, ordering self = Some order
                  ∧ List.find (matches types) order = Some signature).
Proof.
  intros Hreach Hr.
  destruct (resolve_reachable types _ Hreach) as (self1 & tr1 & Hfresh).
  rewrite Hfresh in Hr. injection Hr as Hr _ _. revert Hr.
  unfold resolve_fresh.
  destruct (PyDict.get types (funcs self)) as [f|] eqn:Hf.
  { intros [= ->]. exists types. eauto. }
  destruct (ordering self) as [order|]; [| done].
  destruct (List.find (matches types) order) as [signature|] eqn:Hfind; [| done].
  destruct (PyDict.get signature (funcs self)) as [f|] eqn:Hg; [| done].
  intros [= ->]. exists signature. split; [done |]. split; [| eauto].
  destruct (find_first _ _ _ Hfind) as (j & _ & Hm & _).
  unfold matches in Hm. apply andb_true_iff in Hm as [Hl _].
  by apply Nat.eqb_eq in Hl.
Qed.

(** ** Registration and the cache *)

Lemma strictly_more_specific_of_match types signature :
  matches types signature = true → types ≠ signature →
  strictly_more_specific issubclass types signature = true.
Proof.
  unfold matches, strictly_more_specific. intros Hm Hne.
  apply andb_true_iff in Hm as [Hl Hd]. apply Nat.eqb_eq in Hl.
  rewrite Hd, <- Hl, Nat.eqb_refl. cbn [andb]. by apply bool_decide_eq_true.
Qed.

(** C4.  Let a resolution of [types] have put an entry in the cache, and
    let [add] then register [signature], a match for [types] that is
    strictly more specific than every other registered signature that
    matches [types].  When the recomputed ordering lists exactly the
    registered signatures and puts a strictly more specific signature
    before a less specific one, the next [resolve(types)] returns the
    implementation just registered, whatever the cache held before. *)
Theorem cache_invalidation types self0 cached self1 tr1 signature func :
  resolve types self0 = (Return cached, self1, tr1) →
  let fs := PyDict.set signature func (funcs self1) in
  covers (conflict_ordering fs) fs →
  linearizes issubclass (conflict_ordering fs) →
  matches types signature = true →
  (∀ other, other ∈ PyDict.keys fs → other ≠ signature →
            other = types ∨ matches types other = true →
            strictly_more_specific issubclass signature other = true) →
  ∃ self2 tr2 self3 tr3,
    add signature func self1 = (Return (), self2, tr2)
    ∧ resolve types self2 = (Return func, self3, tr3).
Proof.
  intros _ fs Hcov Hlin Hmatch Hbest. rewrite add_run. fold fs.
  set (self2 := {| name := name self1; funcs := fs;
                   ordering := Some (conflict_ordering fs); _cache := ∅ |}).
  assert (Hsig : PyDict.get signature fs = Some func) by apply get_set_eq.
  assert (∃ i, conflict_ordering fs !! i = Some signature) as [i Hi].
  { apply list_elem_of_lookup, Hcov. by eapply get_Some_keys. }
  assert (Hfresh : resolve_fresh self2 types = Return func).
  { unfold resolve_fresh. cbn [funcs ordering self2].
    destruct (PyDict.get types fs) as [f|] eqn:Hf.
    - destruct (decide (types = signature)) as [->|Hne]; [congruence |].
      exfalso.
      assert (∃ j, conflict_ordering fs !! j = Some types) as [j Hj].
      { apply list_elem_of_lookup, Hcov. by eapply get_Some_keys. }
      pose proof (Hlin i j _ _ Hi Hj
                    (Hbest types (get_Some_keys _ _ _ Hf) Hne (or_introl eq_refl))).
      pose proof (Hlin j i _ _ Hj Hi
                    (strictly_more_specific_of_match _ _ Hmatch Hne)).
      lia.
    - destruct (List.find (matches types) (conflict_ordering fs))
        as [first|] eqn:Hfind.
      + destruct (find_first _ _ _ Hfind) as (j & Hj & Hm & Hbefore).
        destruct (decide (first = signature)) as [->|Hne]; [by rewrite Hsig |].
        exfalso.
        assert (Hin : first ∈ PyDict.keys fs).
        { apply Hcov, list_elem_of_lookup. by exists j. }
        pose proof (Hlin i j _ _ Hi Hj (Hbest first Hin Hne (or_intror Hm))).
        rewrite (Hbefore i signature) in Hmatch; done.
      + exfalso. apply List.find_none with (x := signature) in Hfind.
        * congruence.
        * apply list_elem_of_In, list_elem_of_lookup. by exists i. }
  destruct (resolve_miss types self2) as [tr Hm]; [apply lookup_empty |].
  rewrite Hfresh in Hm. by do 4 eexists.
Qed.

(** ** Calls *)

Context (invoke : Impl → list Value → list (string * Value)
                  → M (Ty:=Ty) (Impl:=Impl) (PyExc:=PyExc) Value).

Local Abbreviation __call__ := (__call__ issubclass type invoke).

Lemma call_run args kwargs self :
  __call__ args kwargs self
  = match resolve (type <$> args) self with
    | (Return func, self1, tr1) =>
        let '(r, self2, tr2) := invoke func args kwargs self1 in
        (r, self2, tr1 ++ tr2)
    | (Raise e, self1, tr1) => (Raise e, self1, tr1)
    end.
Proof. reflexivity. Qed.

(** C8.  [__call__(args, kwargs)] resolves the tuple of the runtime
    types [type(arg)] of the positional arguments.  When that raises,
    the call raises the same exception.  When it returns [func], the call
    is the call of [func] on the same [args] and [kwargs]: it returns
    what [func] returns and raises what [func] raises. *)
Theorem call_convention args kwargs self :
  __call__ args kwargs self
  = match resolve (type <$> args) self with
    | (Return func, self1, tr1) =>
        let '(r, self2, tr2) := invoke func args kwargs self1 in
        (r, self2, tr1 ++ tr2)
    | (Raise e, self1, tr1) => (Raise e, self1, tr1)
    end.
Proof. apply call_run. Qed.

(** C10.  The implementation that [__call__] selects is fixed by the
    dispatcher and the positional arguments alone: one resolution
    outcome serves every choice of keyword arguments, and the keyword
    arguments reach the selected implementation as they were given. *)
Theorem kwargs_never_dispatch args self :
  ∃ selected self1 tr1,
    resolve (type <$> args) self = (selected, self1, tr1)
    ∧ ∀ kwargs,
        __call__ args kwargs self
        = match selected with
          | Return func =>
              let '(r, self2, tr2) := invoke func args kwargs self1 in
              (r, self2, tr1 ++ tr2)
          | Raise e => (Raise e, self1, tr1)
          end.
Proof.
  destruct (resolve (type <$> args) self) as [[selected self1] tr1] eqn:Hr.
  exists selected, self1, tr1. split; [done |].
  intros kwargs. rewrite call_run, Hr. by destruct selected.
Qed.

End Properties.

(** ** The modelled ordering is a linearization

    When [issubclass] is transitive and antisymmetric, as it is on the
    classes of a host, the ordering modelled from the specification lists
    exactly the registered signatures and puts a strictly more specific
    signature first: the two assumptions on [conflict.ordering] can be
    met. *)

Section ConflictFacts.

Context {Ty : Type} `{EqDecision Ty} {Impl : Type}.
Context (issubclass : Ty → Ty → bool).
Hypothesis issubclass_trans :
  ∀ a b c, issubclass a b = true → issubclass b c = true →
           issubclass a c = true.
Hypothesis issubclass_antisym :
  ∀ a b, issubclass a b = true → issubclass b a = true → a = b.

Local Abbreviation dominates := (dominates issubclass).
Local Abbreviation strictly_more_specific :=
  (strictly_more_specific issubclass).
Local Abbreviation insert_before := (insert_before issubclass).
Local Abbreviation stable_ordering :=
  (stable_ordering (Impl:=Impl) issubclass).

Implicit Types (A B C signature : Sig (Ty:=Ty)) (order : list (Sig (Ty:=Ty))).

(** No later signature is strictly more specific than an earlier one. *)
Local Abbreviation ordered :=
  (StronglySorted (λ A B, strictly_more_specific B A = false)).

Lemma dominates_trans A B C :
  length A = length B →
  dominates A B = true → dominates B C = true → dominates A C = true.
Proof.
  revert B C. induction A as [|a A IH]; intros [|b B] [|c C] Hlen;
    cbn [dominates]; try done.
  rewrite !andb_true_iff. intros [Hab HAB] [Hbc HBC]. split.
  - by eapply issubclass_trans.
  - eapply IH; [| done..]. by injection Hlen.
Qed.

Lemma dominates_antisym A B :
  length A = length B →
  dominates A B = true → dominates B A = true → A = B.
Proof.
  revert B. induction A as [|a A IH]; intros [|b B] Hlen;
    cbn [dominates]; try done.
  rewrite !andb_true_iff. intros [Hab HAB] [Hba HBA]. f_equal.
  - by apply issubclass_antisym.
  - apply IH; [by injection Hlen | done..].
Qed.

Lemma strictly_more_specific_iff A B :
  strictly_more_specific A B = true
  ↔ length A = length B ∧ dominates A B = true ∧ A ≠ B.
Proof.
  unfold strictly_more_specific.
  by rewrite !andb_true_iff, Nat.eqb_eq, bool_decide_eq_true, (assoc (∧)).
Qed.

Lemma strictly_more_specific_asym A B :
  strictly_more_specific A B = true → strictly_more_specific B A = false.
Proof.
  intros HAB. apply not_true_is_false. intros HBA.
  apply strictly_more_specific_iff in HAB as (Hlen & Hd & Hne).
  apply strictly_more_specific_iff in HBA as (_ & Hd' & _).
  by apply Hne, dominates_antisym.
Qed.

Lemma strictly_more_specific_trans A B C :
  strictly_more_specific A B = true → strictly_more_specific B C = true →
  strictly_more_specific A C = true.
Proof.
  intros HAB HBC. pose proof (strictly_more_specific_asym _ _ HAB) as Hasym.
  apply strictly_more_specific_iff. revert Hasym.
  apply strictly_more_specific_iff in HAB as (Hlen & Hd & Hne).
  intros Hasym.
  pose proof HBC as HBC'.
  apply strictly_more_specific_iff in HBC' as (Hlen' & Hd' & Hne').
  split; [congruence |]. split; [by eapply dominates_trans |].
  intros ->. congruence.
Qed.

Lemma elem_of_insert_before A signature order :
  A ∈ insert_before signature order ↔ A = signature ∨ A ∈ order.
Proof.
  induction order as [|e rest IH]; cbn [insert_before].
  - rewrite list_elem_of_singleton, elem_of_nil. tauto.
  - destruct (strictly_more_specific signature e).
    + by rewrite elem_of_cons.
    + rewrite !elem_of_cons, IH. tauto.
Qed.

Lemma insert_before_ordered signature order :
  ordered order → ordered (insert_before signature order).
Proof.
  induction order as [|e rest IH]; cbn [insert_before].
  - intros _. by repeat constructor.
  - intros Hord. pose proof Hord as Hord'.
    apply StronglySorted_cons in Hord' as [Hhead Htail].
    destruct (strictly_more_specific signature e) eqn:Hse.
    + apply StronglySorted_cons. split; [| done].
      apply Forall_cons. split; [by apply strictly_more_specific_asym |].
      apply Forall_forall. intros A HA. apply not_true_is_false. intros HAs.
      rewrite Forall_forall in Hhead.
      pose proof (strictly_more_specific_trans _ _ _ HAs Hse).
      specialize (Hhead A HA). congruence.
    + apply StronglySorted_cons. split; [| by apply IH].
      apply Forall_forall. intros A HA.
      apply elem_of_insert_before in HA as [->|HA]; [done |].
      rewrite Forall_forall in Hhead. by apply Hhead.
Qed.

Lemma ordered_linearizes order :
  ordered order → linearizes issubclass order.
Proof.
  induction order as [|e rest IH]; intros Hord i j A B Hi Hj Hs; [done |].
  apply StronglySorted_cons in Hord as [Hhead Htail].
  destruct i as [|i], j as [|j]; cbn in Hi, Hj.
  - apply strictly_more_specific_iff in Hs as (_ & _ & Hne). congruence.
  - lia.
  - injection Hj as ->. rewrite Forall_forall in Hhead.
    rewrite (Hhead A) in Hs; [done |]. by eapply list_elem_of_lookup_2.
  - apply ->Nat.succ_lt_mono. by eapply IH.
Qed.

Lemma stable_ordering_covers (fs : PyDict.t (Sig (Ty:=Ty)) Impl) :
  covers (stable_ordering fs) fs.
Proof.
  unfold covers, stable_ordering. intros A.
  assert (∀ keys order,
            A ∈ foldl (λ order signature, insert_before signature order)
                      order keys
            ↔ A ∈ order ∨ A ∈ keys) as Hfold.
  { induction keys as [|k keys IH]; intros order; cbn [foldl].
    - rewrite elem_of_nil. tauto.
    - rewrite IH, elem_of_insert_before, elem_of_cons. tauto. }
  rewrite Hfold, elem_of_nil. tauto.
Qed.

Lemma stable_ordering_linearizes (fs : PyDict.t (Sig (Ty:=Ty)) Impl) :
  linearizes issubclass (stable_ordering fs).
Proof.
  apply ordered_linearizes. unfold stable_ordering.
  assert (∀ keys order,
            ordered order →
            ordered (foldl (λ order signature, insert_before signature order)
                           order keys)) as Hfold.
  { induction keys as [|k keys IH]; intros order Hord; cbn [foldl]; [done |].
    by apply IH, insert_before_ordered. }
  apply Hfold. constructor.
Qed.

End ConflictFacts.

(** ** Registration under the modelled ordering

    With the ordering modelled from the specification the cache is
    invalidated to the benefit of the new signature as soon as it is a
    match that is strictly more specific than the signature selected
    before. *)

Section StableDispatch.

Context {Ty : Type} `{Countable Ty} {Impl PyExc : Type}.
Context (issubclass : Ty → Ty → bool).
Context (__name__ : Ty → string).
Context (ambiguities : PyDict.t (Sig (Ty:=Ty)) Impl → list (Sig (Ty:=Ty) * Sig (Ty:=Ty))).
Context (super_signature : Sig (Ty:=Ty) * Sig (Ty:=Ty) → Sig (Ty:=Ty)).
Hypothesis issubclass_trans :
  ∀ a b c, issubclass a b = true → issubclass b c = true →
           issubclass a c = true.
Hypothesis issubclass_antisym :
  ∀ a b, issubclass a b = true → issubclass b a = true → a = b.

Local Abbreviation Dispatcher := (Dispatcher (Ty:=Ty) (Impl:=Impl)).
Local Abbreviation matches := (matches issubclass).
Local Abbreviation strictly_more_specific :=
  (strictly_more_specific issubclass).
Local Abbreviation insert_before := (insert_before issubclass).
Local Abbreviation stable_ordering :=
  (stable_ordering (Impl:=Impl) issubclass).
Local Abbreviation resolve := (resolve (Impl:=Impl) (PyExc:=PyExc) issubclass).
Local Abbreviation resolve_fresh :=
  (resolve_fresh (Impl:=Impl) (PyExc:=PyExc) issubclass).
Local Abbreviation add :=
  (add (PyExc:=PyExc) __name__ stable_ordering ambiguities super_signature).
Local Abbreviation reachable :=
  (reachable (PyExc:=PyExc) issubclass __name__ stable_ordering
             ambiguities super_signature).

Implicit Types (self : Dispatcher) (types signature previous : Sig (Ty:=Ty)).

Lemma find_insert_before types signature previous order :
  matches types signature = true →
  List.find (matches types) order = Some previous →
  strictly_more_specific signature previous = true →
  List.find (matches types) (insert_before signature order) = Some signature.
Proof.
  intros Hm Hfind Hs. induction order as [|e rest IH]; [done |].
  cbn [insert_before]. cbn [List.find] in Hfind.
  destruct (strictly_more_specific signature e) eqn:Hse.
  - cbn [List.find]. by rewrite Hm.
  - cbn [List.find]. destruct (matches types e); [| by apply IH].
    congruence.
Qed.

Lemma stable_ordering_set signature func (fs : PyDict.t (Sig (Ty:=Ty)) Impl) :
  stable_ordering (PyDict.set signature func fs)
  = if PyDict.contains signature fs then stable_ordering fs
    else insert_before signature (stable_ordering fs).
Proof.
  unfold stable_ordering. rewrite keys_set.
  destruct (PyDict.contains signature fs); [done |]. by rewrite foldl_snoc.
Qed.

Lemma cache_invalidation_stable
    types self0 cached self1 tr1 previous signature func :
  reachable self0 →
  resolve types self0 = (Return cached, self1, tr1) →
  (previous = types ∧ is_Some (PyDict.get types (funcs self0))
   ∨ PyDict.get types (funcs self0) = None
     ∧ ∃ order, ordering self0 = Some order
                ∧ List.find (matches types) order = Some previous) →
  matches types signature = true →
  strictly_more_specific signature previous = true →
  ∃ self2 tr2 self3 tr3,
    add signature func self1 = (Return (), self2, tr2)
    ∧ resolve types self2 = (Return func, self3, tr3).
Proof.
  intros Hreach Hres Hprev Hm Hs. rewrite add_run.
  assert (funcs self1 = funcs self0) as ->.
  { destruct (resolve_step _ _ _ _ _ _ Hres) as [->|(_ & _ & ->)]; done. }
  set (fs := PyDict.set signature func (funcs self0)).
  set (self2 := {| name := name self1; funcs := fs;
                   ordering := Some (stable_ordering fs); _cache := ∅ |}).
  assert (Hsig : PyDict.get signature fs = Some func) by apply get_set_eq.
  assert (Hfresh : resolve_fresh self2 types = Return func).
  { destruct (decide (types = signature)) as [->|Hne].
    { unfold resolve_fresh. cbn [funcs self2]. by rewrite Hsig. }
    destruct Hprev as [[-> _]|(Hnone & order & Ho & Hfind)].
    { rewrite (strictly_more_specific_asym issubclass issubclass_antisym
                 types signature) in Hs; [done |].
      by apply strictly_more_specific_of_match. }
    pose proof (reachable_ordering _ _ _ _ _ _ Hreach) as Hord.
    rewrite Ho in Hord. destruct Hord as [-> _].
    unfold resolve_fresh. cbn [funcs ordering self2].
    unfold fs at 1. rewrite get_set_ne, Hnone by done.
    unfold fs at 1. rewrite stable_ordering_set.
    destruct (PyDict.contains signature (funcs self0)) eqn:Hc.
    - exfalso. destruct (find_first _ _ _ Hfind) as (j & Hj & _ & Hbefore).
      assert (∃ i, stable_ordering (funcs self0) !! i = Some signature)
        as [i Hi].
      { apply list_elem_of_lookup, stable_ordering_covers.
        unfold PyDict.contains in Hc.
        destruct (PyDict.get signature (funcs self0)) eqn:Hg; [| done].
        by eapply get_Some_keys. }
      pose proof (stable_ordering_linearizes issubclass issubclass_trans
                    issubclass_antisym (funcs self0) i j _ _ Hi Hj Hs).
      rewrite (Hbefore i signature) in Hm; done.
    - rewrite (find_insert_before _ _ _ _ Hm Hfind Hs). by rewrite Hsig. }
  destruct (resolve_miss (PyExc:=PyExc) issubclass types self2) as [tr Hmiss];
    [apply lookup_empty |].
  rewrite Hfresh in Hmiss. by do 4 eexists.
Qed.

End StableDispatch.

Lemma host_issubclass_trans a b c :
  Host.issubclass a b = true → Host.issubclass b c = true →
  Host.issubclass a c = true.
Proof. by destruct a, b, c. Qed.

Lemma host_issubclass_antisym a b :
  Host.issubclass a b = true → Host.issubclass b a = true → a = b.
Proof. by destruct a, b. Qed.

(** ** The theorems at work on the small host *)

Example resolve_before_any_add :
  Host.resolve [Host.Integer] (__init__ "f")
  = (Raise (AttributeError "ordering"), __init__ "f", []).
Proof. reflexivity. Qed.

Example call_integer :
  (Host.__call__ [Host.VInteger 3] [] Host.f3).1.1
  = Return (Host.VInteger 4).
Proof. reflexivity. Qed.

Example call_integer_keyword :
  (Host.__call__ [Host.VInteger 3] [("by", Host.VInteger 4)] Host.f3).1.1
  = Return (Host.VInteger 7).
Proof. reflexivity. Qed.

Example call_text :
  (Host.__call__ [Host.VText "s"] [] Host.f3).1.1 = Raise NotImplementedError.
Proof. reflexivity. Qed.

Example call_two_arguments :
  (Host.__call__ [Host.VInteger 3; Host.VInteger 4] [] Host.f3).1.1
  = Raise NotImplementedError.
Proof. reflexivity. Qed.

Example resolve_scans_in_order :
  (Host.resolve [Host.Boolean] Host.f3).1.1 = Return Host.inc
  ∧ (Host.resolve [Host.Boolean] Host.f3).2
    = [Visit [Host.Integer]; Query Host.Boolean Host.Integer].
Proof. split; reflexivity. Qed.

Example add_warns_once :
  (Host.add [Host.Number; Host.Integer] Host.dec
     (Host.add [Host.Integer; Host.Number] Host.inc (__init__ "g")).1.2).2
  = [Warn (warning_text Host.__name__ Host.super_signature "g"
             [([Host.Integer; Host.Number], [Host.Number; Host.Integer])])].
Proof. reflexivity. Qed.

Lemma f3_reachable : Host.reachable Host.f3.
Proof.
  apply reachable_after_add, reachable_after_resolve, reachable_after_add.
  apply reachable_init.
Qed.

Lemma resolve_algorithm_witness :
  Host.resolve [Host.Boolean] Host.f2 = (Return Host.dec, Host.f2, [])
  ∧ Host.resolve [Host.Integer] Host.f3
    = (Return Host.inc,
       with_cache Host.f3 (<[[Host.Integer] := Host.inc]> (_cache Host.f3)), [])
  ∧ ∃ tr, Host.resolve [Host.Boolean] Host.g2
          = (Return Host.dec,
             with_cache Host.g2
               (<[[Host.Boolean] := Host.dec]> (_cache Host.g2)), tr).
Proof.
  split; [| split].
  - apply (proj1 (resolve_algorithm Host.issubclass [Host.Boolean] Host.f2)).
    reflexivity.
  - apply (proj1 (proj2 (resolve_algorithm Host.issubclass [Host.Integer]
                           Host.f3)));
      reflexivity.
  - apply (proj2 (proj2 (resolve_algorithm Host.issubclass [Host.Boolean] Host.g2))
             [[Host.Text]; [Host.Number]] [[Host.Text]] [Host.Number] []);
      try reflexivity.
    intros earlier Hin _. apply list_elem_of_singleton in Hin. by subst earlier.
Defined.

Lemma cache_transparency_witness :
  Host.resolve [Host.Boolean] Host.f2 = (Return Host.dec, Host.f2, []).
Proof.
  apply (cache_transparency Host.issubclass [Host.Boolean] Host.f1 Host.dec
           Host.f2 [Visit [Host.Number]; Query Host.Boolean Host.Number]).
  reflexivity.
Defined.

Lemma failed_resolve_is_atomic_witness :
  (Host.resolve [Host.Text] Host.f3).1.2 = Host.f3.
Proof.
  apply (failed_resolve_is_atomic (PyExc:=Host.PyExc) Host.issubclass
           [Host.Text] Host.f3 NotImplementedError _
           [Visit [Host.Integer]; Query Host.Text Host.Integer;
            Visit [Host.Number]; Query Host.Text Host.Number]).
  reflexivity.
Defined.

Lemma specificity_wins_witness :
  ∃ self' tr,
    Host.resolve [Host.Integer] Host.f3 = (Return Host.inc, self', tr).
Proof.
  apply (specificity_wins Host.issubclass Host.__name__ Host.ordering
           Host.ambiguities Host.super_signature Host.Number Host.Integer
           Host.f3 Host.dec Host.inc);
    [apply f3_reachable | reflexivity..].
Defined.

Lemma h2_reachable : Host.reachable Host.h2.
Proof. apply reachable_after_add, reachable_after_add, reachable_init. Qed.

Lemma arity_isolation_witness :
  PyDict.get [Host.Number; Host.Number] (funcs Host.h2) = Some Host.dec
  ∧ dominates Host.issubclass [Host.Boolean] [Host.Number; Host.Number] = true
  ∧ ∃ signature,
      PyDict.get signature (funcs Host.h2) = Some Host.inc
      ∧ length signature = 1
      ∧ (signature = [Host.Boolean]
         ∨ ∃ order,
             ordering Host.h2 = Some order
             ∧ List.find (matches Host.issubclass [Host.Boolean]) order
               = Some signature).
Proof.
  split; [reflexivity |]. split; [reflexivity |].
  apply (arity_isolation (PyExc:=Host.PyExc) Host.issubclass Host.__name__
           Host.ordering Host.ambiguities Host.super_signature [Host.Boolean]
           Host.h2 Host.inc (Host.resolve [Host.Boolean] Host.h2).1.2
           [Visit [Host.Number; Host.Number]; Visit [Host.Integer];
            Query Host.Boolean Host.Integer]);
    [apply h2_reachable | reflexivity].
Defined.

Lemma cache_invalidation_witness :
  ∃ self2 tr2 self3 tr3,
    Host.add [Host.Integer] Host.inc Host.f2 = (Return (), self2, tr2)
    ∧ Host.resolve [Host.Boolean] self2 = (Return Host.inc, self3, tr3).
Proof.
  apply (cache_invalidation Host.issubclass Host.__name__ Host.ordering
           Host.ambiguities Host.super_signature [Host.Boolean] Host.f1
           Host.dec Host.f2
           [Visit [Host.Number]; Query Host.Boolean Host.Number]
           [Host.Integer] Host.inc).
  - reflexivity.
  - intros signature.
    change (signature ∈ [[Host.Integer]; [Host.Number]]
            ↔ signature ∈ [[Host.Number]; [Host.Integer]]).
    rewrite !elem_of_cons. tauto.
  - change (linearizes Host.issubclass [[Host.Integer]; [Host.Number]]).
    intros [|[|i]] [|[|j]] A B HA HB Hs; simplify_eq/=; try lia; done.
  - reflexivity.
  - intros other Hin Hne _.
    change (other ∈ [[Host.Number]; [Host.Integer]]) in Hin.
    rewrite !elem_of_cons in Hin.
    destruct Hin as [->|[->|Hin]]; [reflexivity | done |].
    by apply not_elem_of_nil in Hin.
Defined.

(** C4, as it is written, fails when another registered signature also
    matches the tuple and is not comparable with the new one.  Under the
    second ordering the specification allows, [(Number, object)] and
    [(object, Number)] are registered, [resolve((Boolean, Boolean))]
    selects [(Number, object)] and caches [dec]; [add] then registers
    [(Integer, object)], a match for the tuple that is strictly more
    specific than the signature selected before.  The recomputed
    ordering lists exactly the registered signatures and puts the new
    signature before [(Number, object)], yet the next resolution returns
    [shout], registered under [(object, Number)], not the new [inc]. *)
Lemma cache_invalidation_counterexample :
  Host.resolve [Host.Boolean; Host.Boolean] HostEarliest.k2
  = (Return Host.dec, HostEarliest.k3,
     [Visit [Host.Number; Host.object]; Query Host.Boolean Host.Number;
      Query Host.Boolean Host.object])
  ∧ List.find (matches Host.issubclass [Host.Boolean; Host.Boolean])
              (default [] (ordering HostEarliest.k2))
    = Some [Host.Number; Host.object]
  ∧ matches Host.issubclass [Host.Boolean; Host.Boolean]
            [Host.Integer; Host.object] = true
  ∧ strictly_more_specific Host.issubclass [Host.Integer; Host.object]
                           [Host.Number; Host.object] = true
  ∧ (HostEarliest.add [Host.Integer; Host.object] Host.inc HostEarliest.k3).1
    = (Return (), HostEarliest.k4)
  ∧ ordering HostEarliest.k4
    = Some (HostEarliest.ordering (funcs HostEarliest.k4))
  ∧ covers (HostEarliest.ordering (funcs HostEarliest.k4))
           (funcs HostEarliest.k4)
  ∧ linearizes Host.issubclass (HostEarliest.ordering (funcs HostEarliest.k4))
  ∧ (Host.resolve [Host.Boolean; Host.Boolean] HostEarliest.k4).1.1
    = Return Host.shout
  ∧ Host.shout ≠ Host.inc.
Proof.
  split_and!; try reflexivity.
  - intros signature.
    change (signature ∈ [[Host.object; Host.Number];
                         [Host.Integer; Host.object];
                         [Host.Number; Host.object]]
            ↔ signature ∈ [[Host.Number; Host.object];
                           [Host.object; Host.Number];
                           [Host.Integer; Host.object]]).
    rewrite !elem_of_cons. tauto.
  - change (linearizes Host.issubclass
              [[Host.object; Host.Number]; [Host.Integer; Host.object];
               [Host.Number; Host.object]]).
    intros [|[|[|i]]] [|[|[|j]]] A B HA HB Hs; simplify_eq/=; try lia;
      by vm_compute in Hs.
  - discriminate.
Qed.

(** ** More about registration and resolution *)

Section MoreDictFacts.
Context {K V : Type} `{EqDecision K}.
Implicit Types (k : K) (v w : V) (d : PyDict.t K V).

Lemma set_set k v w d : PyDict.set k v (PyDict.set k w d) = PyDict.set k v d.
Proof.
  induction d as [|[k' v'] r IH]; cbn [PyDict.set].
  - by rewrite decide_True.
  - destruct (decide (k = k')) as [->|Hne]; cbn [PyDict.set].
    + by rewrite decide_True.
    + by rewrite decide_False, IH.
Qed.

Lemma contains_false_keys k d : PyDict.contains k d = false → k ∉ PyDict.keys d.
Proof.
  unfold PyDict.contains. intros Hc. apply get_None_keys.
  by destruct (PyDict.get k d).
Qed.

Lemma NoDup_keys_set k v d :
  NoDup (PyDict.keys d) → NoDup (PyDict.keys (PyDict.set k v d)).
Proof.
  intros Hnd. rewrite keys_set.
  destruct (PyDict.contains k d) eqn:Hc; [done |].
  apply NoDup_app. split; [done |]. split; [| apply NoDup_singleton].
  intros x Hx Hin. apply list_elem_of_singleton in Hin as ->.
  by apply contains_false_keys in Hc.
Qed.

End MoreDictFacts.

Section Coverage.

Context {Ty : Type} `{Countable Ty}.
Context {Value Impl PyExc : Type}.
Context (issubclass : Ty → Ty → bool).
Context (type : Value → Ty).
Context (__name__ : Ty → string).
Context (conflict_ordering : PyDict.t (Sig (Ty:=Ty)) Impl → list (Sig (Ty:=Ty))).
Context (ambiguities : PyDict.t (Sig (Ty:=Ty)) Impl → list (Sig (Ty:=Ty) * Sig (Ty:=Ty))).
Context (super_signature : Sig (Ty:=Ty) * Sig (Ty:=Ty) → Sig (Ty:=Ty)).

Local Abbreviation Dispatcher := (Dispatcher (Ty:=Ty) (Impl:=Impl)).
Local Abbreviation exn := (exn (Ty:=Ty) (PyExc:=PyExc)).
Local Abbreviation resolve := (resolve (Impl:=Impl) (PyExc:=PyExc) issubclass).
Local Abbreviation resolve_scan :=
  (resolve_scan (Impl:=Impl) (PyExc:=PyExc) issubclass).
Local Abbreviation all_issubclass :=
  (all_issubclass (Impl:=Impl) (PyExc:=PyExc) issubclass).
Local Abbreviation resolve_fresh :=
  (resolve_fresh (Impl:=Impl) (PyExc:=PyExc) issubclass).
Local Abbreviation dominates := (dominates issubclass).
Local Abbreviation matches := (matches issubclass).
Local Abbreviation strictly_more_specific :=
  (strictly_more_specific issubclass).
Local Abbreviation add :=
  (add (PyExc:=PyExc) __name__ conflict_ordering ambiguities super_signature).
Local Abbreviation register :=
  (register (PyExc:=PyExc) __name__ conflict_ordering ambiguities
            super_signature).
Local Abbreviation reachable :=
  (reachable (PyExc:=PyExc) issubclass __name__ conflict_ordering
             ambiguities super_signature).

Implicit Types (self : Dispatcher) (types signature other : Sig (Ty:=Ty)).
Implicit Types (func cached : Impl) (r : outcome exn Impl) (e : exn).

(** X1.  Registering a signature twice leaves the dispatcher as the last
    registration alone would: [add(signature, func2)] after
    [add(signature, func1)] gives the same object, the same outcome and
    the same warning as [add(signature, func2)] at once. *)
Theorem add_last_registration_wins signature func1 func2 self :
  add signature func2 (add signature func1 self).1.2
  = add signature func2 self.
Proof.
  rewrite !(add_run (PyExc:=PyExc)). cbn [fst snd funcs name].
  by rewrite set_set.
Qed.

(** X2.  The registry of a reachable dispatcher holds every signature
    once. *)
Theorem registry_keys_nodup self :
  reachable self → NoDup (PyDict.keys (funcs self)).
Proof.
  induction 1 as [nm | self signature func r self' tr _ IH Hadd
                 | self types r self' tr _ IH Hres].
  - apply NoDup_nil_2.
  - rewrite add_run in Hadd. injection Hadd as _ <- _. cbn [funcs].
    by apply NoDup_keys_set.
  - by destruct (resolve_step _ _ _ _ _ _ Hres) as [->|(_ & _ & ->)];
      [| destruct r].
Qed.

(** X3.  [resolve] writes to the cache only, and only at [types]: the
    name, the registry and the ordering are as before, every other cache
    entry is as before, and an implementation that is returned is the
    cache entry of [types] afterwards. *)
Theorem resolve_frame types self r self' tr :
  resolve types self = (r, self', tr) →
  name self' = name self
  ∧ funcs self' = funcs self
  ∧ ordering self' = ordering self
  ∧ (∀ other, other ≠ types → _cache self' !! other = _cache self !! other)
  ∧ (∀ func, r = Return func → _cache self' !! types = Some func).
Proof.
  intros Hr. destruct (_cache self !! types) as [cached|] eqn:Hc.
  - rewrite (resolve_hit _ _ _ _ Hc) in Hr. injection Hr as <- <- _.
    split_and!; try done. by intros func [= <-].
  - destruct (resolve_miss (PyExc:=PyExc) issubclass _ _ Hc) as [tr' Hm]. rewrite Hm in Hr.
    injection Hr as <- <- _.
    destruct (resolve_fresh self types) as [func|e];
      cbn [remember with_cache name funcs ordering _cache].
    + split_and!; try done.
      * intros other Hne. by rewrite lookup_insert_ne.
      * intros func' [= <-]. apply lookup_insert_eq.
    + split_and!; done.
Qed.

(** X4.  On a reachable dispatcher the cache never changes an answer:
    [resolve(types)] returns or raises what it would with the cache
    emptied first. *)
Theorem cache_never_changes_answers types self :
  reachable self →
  (resolve types self).1.1 = (resolve types (with_cache self ∅)).1.1.
Proof.
  intros Hreach.
  destruct (resolve_reachable _ _ _ _ _ types _ Hreach) as (self' & tr & ->).
  destruct (resolve_miss (PyExc:=PyExc) issubclass types (with_cache self ∅)) as [tr' ->];
    [apply lookup_empty | done].
Qed.

(** X5.  On a reachable dispatcher the ordering is never stale: the slot
    is unset exactly while the registry is empty, and otherwise holds the
    ordering computed from the registry as it is now, whatever sequence
    of [add] and [resolve] led there. *)
Theorem ordering_never_stale self :
  reachable self →
  match ordering self with
  | None => funcs self = []
  | Some order => order = conflict_ordering (funcs self) ∧ funcs self ≠ []
  end.
Proof. apply reachable_ordering. Qed.

(** X6.  On a reachable dispatcher whose ordering lists exactly the
    registered signatures, [resolve(types)] returns an implementation if
    and only if some registered signature is [types] itself or has the
    length of [types] and dominates it pointwise. *)
Theorem resolve_succeeds_iff_match types self :
  reachable self →
  covers (conflict_ordering (funcs self)) (funcs self) →
  (∃ func, (resolve types self).1.1 = Return func)
  ↔ (∃ signature, signature ∈ PyDict.keys (funcs self)
                  ∧ (signature = types ∨ matches types signature = true)).
Proof.
  intros Hreach Hcov.
  destruct (resolve_reachable _ _ _ _ _ types _ Hreach) as (self' & tr & ->).
  cbn [fst]. pose proof (reachable_ordering _ _ _ _ _ _ Hreach) as Hord.
  unfold resolve_fresh.
  destruct (PyDict.get types (funcs self)) as [f|] eqn:Hf.
  { split; [| by eexists]. intros _. exists types. split; [| by left].
    by eapply get_Some_keys. }
  destruct (ordering self) as [order|].
  - destruct Hord as [-> _].
    destruct (List.find (matches types) (conflict_ordering (funcs self)))
      as [first|] eqn:Hfind.
    + destruct (find_first _ _ _ Hfind) as (j & Hj & Hm & _).
      assert (Hin : first ∈ PyDict.keys (funcs self)).
      { apply Hcov, list_elem_of_lookup. by exists j. }
      destruct (keys_get_Some _ _ Hin) as [f ->].
      split; [| by eexists]. intros _. exists first. split; [done | by right].
    + split; [by intros [func ?] |].
      intros (signature & Hin & [->|Hm]).
      * apply get_None_keys in Hf. done.
      * apply Hcov, list_elem_of_In in Hin.
        apply (List.find_none _ _ Hfind) in Hin. congruence.
  - split; [by intros [func ?] |]. intros (signature & Hin & _).
    rewrite Hord in Hin. by apply not_elem_of_nil in Hin.
Qed.

(** X7.  On a reachable dispatcher with at least one registration, whose
    ordering lists registered signatures only, [resolve] returns an
    implementation or raises [NotImplementedError]: it raises no other
    exception. *)
Theorem resolve_raises_only_not_implemented types self :
  reachable self →
  funcs self ≠ [] →
  (∀ signature, signature ∈ conflict_ordering (funcs self) →
                signature ∈ PyDict.keys (funcs self)) →
  (∃ func, (resolve types self).1.1 = Return func)
  ∨ (resolve types self).1.1 = Raise NotImplementedError.
Proof.
  intros Hreach Hne Hsub.
  destruct (resolve_reachable _ _ _ _ _ types _ Hreach) as (self' & tr & ->).
  cbn [fst]. pose proof (reachable_ordering _ _ _ _ _ _ Hreach) as Hord.
  unfold resolve_fresh.
  destruct (PyDict.get types (funcs self)) as [f|]; [left; by eexists |].
  destruct (ordering self) as [order|]; [| done]. destruct Hord as [-> _].
  destruct (List.find (matches types) (conflict_ordering (funcs self)))
    as [first|] eqn:Hfind; [| by right].
  destruct (find_first _ _ _ Hfind) as (j & Hj & _ & _).
  assert (Hin : first ∈ PyDict.keys (funcs self)).
  { apply Hsub, list_elem_of_lookup. by exists j. }
  destruct (keys_get_Some _ _ Hin) as [f ->]. left. by eexists.
Qed.

(** X8.  On a reachable dispatcher whose ordering lists exactly the
    registered signatures and puts a strictly more specific signature
    first, the implementation [resolve(types)] returns is registered
    under a match for [types] that no other registered match is strictly
    more specific than. *)
Theorem resolve_most_specific types self func self' tr :
  reachable self →
  covers (conflict_ordering (funcs self)) (funcs self) →
  linearizes issubclass (conflict_ordering (funcs self)) →
  resolve types self = (Return func, self', tr) →
  ∃ signature,
    PyDict.get signature (funcs self) = Some func
    ∧ (signature = types ∨ matches types signature = true)
    ∧ ∀ other, other ∈ PyDict.keys (funcs self) →
               (other = types ∨ matches types other = true) →
               strictly_more_specific other signature = false.
Proof.
  intros Hreach Hcov Hlin Hr.
  destruct (resolve_reachable _ _ _ _ _ types _ Hreach) as (self1 & tr1 & Hfresh).
  rewrite Hfresh in Hr. injection Hr as Hr _ _. revert Hr.
  pose proof (reachable_ordering _ _ _ _ _ _ Hreach) as Hord.
  unfold resolve_fresh.
  destruct (PyDict.get types (funcs self)) as [f|] eqn:Hf.
  { intros [= ->]. exists types. split; [done |]. split; [by left |].
    intros other Hin Hother. apply not_true_is_false. intros Hs.
    assert (Hne : types ≠ other).
    { intros <-. unfold strictly_more_specific in Hs.
      apply andb_true_iff in Hs as [_ Hs]. by apply bool_decide_eq_true in Hs. }
    destruct Hother as [->|Hm]; [done |].
    assert (∃ i, conflict_ordering (funcs self) !! i = Some other) as [i Hi].
    { by apply list_elem_of_lookup, Hcov. }
    assert (∃ j, conflict_ordering (funcs self) !! j = Some types) as [j Hj].
    { apply list_elem_of_lookup, Hcov. by eapply get_Some_keys. }
    pose proof (Hlin i j _ _ Hi Hj Hs).
    pose proof (Hlin j i _ _ Hj Hi
                  (strictly_more_specific_of_match _ _ _ Hm Hne)).
    lia. }
  destruct (ordering self) as [order|]; [| done]. destruct Hord as [-> _].
  destruct (List.find (matches types) (conflict_ordering (funcs self)))
    as [first|] eqn:Hfind; [| done].
  destruct (PyDict.get first (funcs self)) as [f|] eqn:Hg; [| done].
  intros [= ->]. exists first.
  destruct (find_first _ _ _ Hfind) as (j & Hj & Hm & Hbefore).
  split; [done |]. split; [by right |].
  intros other Hin Hother. apply not_true_is_false. intros Hs.
  destruct Hother as [->|Hmo].
  { apply get_None_keys in Hf. done. }
  assert (∃ i, conflict_ordering (funcs self) !! i = Some other) as [i Hi].
  { by apply list_elem_of_lookup, Hcov. }
  pose proof (Hlin i j _ _ Hi Hj Hs) as Hij.
  rewrite (Hbefore i other Hij Hi) in Hmo. done.
Qed.

(** *** What a trace of [resolve] shows *)

Ltac unfold_monad :=
  unfold mbind, mret, mthrow, M_bind, M_ret, M_throw, emit, get_funcs,
    get_cache, get_ordering, funcs_getitem, cache_setitem; cbn beta iota.

Lemma visits_app (tr1 tr2 : list (event (Ty:=Ty))) :
  visits (tr1 ++ tr2) = visits tr1 ++ visits tr2.
Proof. apply omap_app. Qed.

Lemma queries_app (tr1 tr2 : list (event (Ty:=Ty))) :
  queries (tr1 ++ tr2) = queries tr1 ++ queries tr2.
Proof. apply omap_app. Qed.

Lemma visits_Visit signature (tr : list (event (Ty:=Ty))) :
  visits (Visit signature :: tr) = signature :: visits tr.
Proof. reflexivity. Qed.

Lemma visits_Query (c k : Ty) (tr : list (event (Ty:=Ty))) :
  visits (Query c k :: tr) = visits tr.
Proof. reflexivity. Qed.

Lemma queries_Visit signature (tr : list (event (Ty:=Ty))) :
  queries (Visit signature :: tr) = queries tr.
Proof. reflexivity. Qed.

Lemma queries_Query (c k : Ty) (tr : list (event (Ty:=Ty))) :
  queries (Query c k :: tr) = (c, k) :: queries tr.
Proof. reflexivity. Qed.

(** The test of one signature visits nothing and asks [issubclass] about
    types at the same position only. *)
Lemma all_issubclass_trace types signature self (b : outcome exn bool) self' tr :
  all_issubclass types signature self = (b, self', tr) →
  visits tr = []
  ∧ ∀ c k, (c, k) ∈ queries tr →
           ∃ i, types !! i = Some c ∧ signature !! i = Some k.
Proof.
  revert signature b self' tr.
  induction types as [|t types IH]; intros [|s signature] b self' tr;
    cbn [all_issubclass]; unfold_monad;
    try (intros [= <- <- <-]; split; [done |];
         intros c k Hin; by apply not_elem_of_nil in Hin).
  destruct (issubclass t s).
  - destruct (all_issubclass types signature self) as [[b1 self1] tr1] eqn:Hrest.
    destruct (IH _ _ _ _ Hrest) as [Hv Hq].
    intros [= <- <- <-]. rewrite visits_Query, queries_Query. split; [done |].
    intros c k Hin. apply elem_of_cons in Hin as [[= -> ->]|Hin].
    + by exists 0.
    + destruct (Hq _ _ Hin) as (i & ? & ?). by exists (S i).
  - intros [= <- <- <-]. rewrite visits_Query, queries_Query. split; [done |].
    intros c k Hin. apply list_elem_of_singleton in Hin as [= -> ->].
    by exists 0.
Qed.

Lemma resolve_scan_trace types order self r self' tr :
  resolve_scan types (length types) order self = (r, self', tr) →
  visits tr `prefix_of` order
  ∧ (∀ i s, S i < length (visits tr) → visits tr !! i = Some s →
            matches types s = false)
  ∧ ∀ c k, (c, k) ∈ queries tr →
           ∃ signature i, signature ∈ order
                          ∧ length signature = length types
                          ∧ types !! i = Some c ∧ signature !! i = Some k.
Proof.
  revert r self' tr. induction order as [|signature rest IH]; intros r self' tr;
    cbn [resolve_scan]; unfold_monad.
  { intros [= <- <- <-]. split; [apply prefix_nil |]. split.
    - intros i s Hi. cbn in Hi. lia.
    - intros c k Hin. by apply not_elem_of_nil in Hin. }
  destruct (resolve_scan types (length types) rest self)
    as [[r1 self1] tr1] eqn:Hscan.
  destruct (IH _ _ _ eq_refl) as (Hp & Hnm & Hq). clear IH.
  destruct (Nat.eqb (length signature) (length types)) eqn:Hlen.
  - destruct (all_issubclass_run (PyExc:=PyExc) issubclass types signature self) as [trq Hrun].
    pose proof (all_issubclass_trace _ _ _ _ _ _ Hrun) as [Hvq Hqq].
    rewrite Hrun. apply Nat.eqb_eq in Hlen.
    assert (Hhere : ∀ c k, (c, k) ∈ queries trq →
              ∃ s i, s ∈ signature :: rest ∧ length s = length types
                     ∧ types !! i = Some c ∧ s !! i = Some k).
    { intros c k Hin. destruct (Hqq _ _ Hin) as (i & ? & ?).
      exists signature, i. split_and!; try done. apply list_elem_of_here. }
    destruct (dominates types signature) eqn:Hdom.
    + assert (Hfound : ∀ tr',
                tr' = Visit signature :: trq →
                visits tr' `prefix_of` signature :: rest
                ∧ (∀ i s, S i < length (visits tr') →
                          visits tr' !! i = Some s → matches types s = false)
                ∧ ∀ c k, (c, k) ∈ queries tr' →
                    ∃ s i, s ∈ signature :: rest ∧ length s = length types
                           ∧ types !! i = Some c ∧ s !! i = Some k).
      { intros tr' ->. rewrite visits_Visit, queries_Visit, Hvq.
        split; [by apply prefix_cons, prefix_nil |]. split; [| done].
        intros i s Hi. cbn in Hi. lia. }
      destruct (PyDict.get signature (funcs self));
        intros Heq; injection Heq; intros <- <- <-; apply Hfound;
        by rewrite ?app_nil_r.
    + cbn beta iota. rewrite ?Hscan. cbn beta iota.
      intros Heq; injection Heq; intros <- <- <-.
      rewrite visits_Visit, queries_Visit, visits_app, queries_app, Hvq.
      cbn [app]. split; [by apply prefix_cons |]. split.
      * intros [|i] s Hi Hs; cbn in Hi, Hs.
        { injection Hs as <-. unfold matches.
          by rewrite Hdom, andb_false_r. }
        apply (Hnm i); [lia | done].
      * intros c k Hin. apply elem_of_app in Hin as [Hin|Hin]; [by apply Hhere |].
        destruct (Hq _ _ Hin) as (s & i & ? & ? & ? & ?).
        exists s, i. split_and!; try done. by apply list_elem_of_further.
  - cbn beta iota. rewrite ?Hscan. cbn beta iota.
    intros Heq; injection Heq; intros <- <- <-.
    rewrite visits_Visit, queries_Visit.
    split; [by apply prefix_cons |]. split.
    + intros [|i] s Hi Hs; cbn in Hi, Hs.
      { injection Hs as <-. unfold matches. by rewrite Hlen. }
      apply (Hnm i); [lia | done].
    + intros c k Hin. destruct (Hq _ _ Hin) as (s & i & ? & ? & ? & ?).
      exists s, i. split_and!; try done. by apply list_elem_of_further.
Qed.

(** The trace of [resolve] is empty, or is the trace of the scan of the
    ordering. *)
Lemma resolve_trace types self r self' tr :
  resolve types self = (r, self', tr) →
  tr = []
  ∨ ∃ order, ordering self = Some order
             ∧ resolve_scan types (length types) order self = (r, self', tr).
Proof.
  unfold resolve. unfold_monad.
  destruct (_cache self !! types); [intros [= <- <- <-]; by left |].
  destruct (PyDict.get types (funcs self)); [intros [= <- <- <-]; by left |].
  destruct (ordering self) as [order|]; [| intros [= <- <- <-]; by left].
  destruct (resolve_scan types (length types) order self)
    as [[r1 self1] tr1] eqn:Hs.
  cbn beta iota. intros Heq; injection Heq; intros <- <- <-.
  right. exists order. split; [done |]. by rewrite Hs.
Qed.

(** X9.  [resolve(types)] calls [issubclass] only on an argument type and
    the type at the same position of a signature of the ordering that
    has the length of [types]: a signature of another length is never
    put to [issubclass]. *)
Theorem queries_same_arity types self r self' tr c k :
  resolve types self = (r, self', tr) →
  (c, k) ∈ queries tr →
  ∃ order signature i,
    ordering self = Some order
    ∧ signature ∈ order
    ∧ length signature = length types
    ∧ types !! i = Some c ∧ signature !! i = Some k.
Proof.
  intros Hr Hin. destruct (resolve_trace _ _ _ _ _ Hr) as [->|(order & Ho & Hs)].
  - by apply not_elem_of_nil in Hin.
  - destruct (resolve_scan_trace _ _ _ _ _ _ Hs) as (_ & _ & Hq).
    destruct (Hq _ _ Hin) as (signature & i & ?). by exists order, signature, i.
Qed.

(** X10.  The scan of [resolve(types)] visits the signatures of the
    ordering from the front, without a gap, and no visited signature
    but the last one passes the test: the scan stops at the first
    match. *)
Theorem scan_stops_at_first_match types self r self' tr :
  resolve types self = (r, self', tr) →
  visits tr `prefix_of` default [] (ordering self)
  ∧ ∀ i signature,
      S i < length (visits tr) → visits tr !! i = Some signature →
      matches types signature = false.
Proof.
  intros Hr. destruct (resolve_trace _ _ _ _ _ Hr) as [->|(order & Ho & Hs)].
  - split; [apply prefix_nil |]. intros i signature Hi. cbn in Hi. lia.
  - destruct (resolve_scan_trace _ _ _ _ _ _ Hs) as (Hp & Hnm & _).
    by rewrite Ho.
Qed.

(** *** Registration, then a call *)

Lemma resolve_exact types func self :
  _cache self !! types = None →
  PyDict.get types (funcs self) = Some func →
  resolve types self
  = (Return func, with_cache self (<[types := func]> (_cache self)), []).
Proof.
  intros Hc Hf. unfold resolve. unfold_monad. by rewrite Hc, Hf.
Qed.

Context (invoke : Impl → list Value → list (string * Value)
                  → M (Ty:=Ty) (Impl:=Impl) (PyExc:=PyExc) Value).

Local Abbreviation __call__ := (__call__ issubclass type invoke).

(** X11.  After [register] of the tuple of the runtime types of [args]
    with [func], the call of the dispatcher on [args] and [kwargs] is
    the call of [func] on the same [args] and [kwargs], made once the
    cache holds [func] for these types; no signature is scanned. *)
Theorem register_then_call args kwargs func self :
  let registered := (register (type <$> args) func self).1.2 in
  (register (type <$> args) func self).1.1 = Return registered
  ∧ __call__ args kwargs registered
    = invoke func args kwargs
        (with_cache registered (<[type <$> args := func]> ∅)).
Proof.
  unfold register. unfold mbind, M_bind, get_self.
  rewrite (add_run (PyExc:=PyExc)). cbn [fst snd]. split; [done |].
  rewrite (call_run issubclass type invoke).
  rewrite (resolve_exact _ func); [| apply lookup_empty | apply get_set_eq].
  by destruct (invoke func args kwargs _) as [[r2 self2] tr2].
Qed.

End Coverage.

(** ** Rendering *)

Section RenderingFacts.

Context {Ty : Type} `{Countable Ty} {Impl : Type}.
Context (__name__ : Ty → string).
Context (super_signature : Sig (Ty:=Ty) * Sig (Ty:=Ty) → Sig (Ty:=Ty)).

Lemma string_app_cons (ch : Ascii.ascii) (a b : string) :
  String ch a +:+ b = String ch (a +:+ b).
Proof. reflexivity. Qed.

Lemma string_app_assoc (a b c : string) : (a +:+ b) +:+ c = a +:+ b +:+ c.
Proof.
  induction a as [|ch a IH]; [done |]. by rewrite !string_app_cons, IH.
Qed.

Lemma string_length_app (a b : string) :
  String.length (a +:+ b) = String.length a + String.length b.
Proof.
  induction a as [|ch a IH]; [done |].
  rewrite string_app_cons. cbn [String.length]. by rewrite IH.
Qed.

Lemma string_app_inj_r (a b c : string) : a +:+ c = b +:+ c → a = b.
Proof.
  revert b. induction a as [|ch a IH]; intros [|ch' b] Heq.
  - done.
  - change (c = String ch' (b +:+ c)) in Heq.
    apply (f_equal String.length) in Heq. cbn [String.length] in Heq.
    rewrite string_length_app in Heq. lia.
  - change (String ch (a +:+ c) = c) in Heq.
    apply (f_equal String.length) in Heq. cbn [String.length] in Heq.
    rewrite string_length_app in Heq. lia.
  - rewrite !string_app_cons in Heq. injection Heq as -> Heq.
    f_equal. by apply IH.
Qed.

Lemma string_app_inj_l (a b c : string) : a +:+ b = a +:+ c → b = c.
Proof.
  induction a as [|ch a IH]; [done |].
  rewrite !string_app_cons. intros [= Heq]. by apply IH.
Qed.

Lemma string_app_nil_r (a : string) : a +:+ EmptyString = a.
Proof.
  induction a as [|ch a IH]; [done |]. by rewrite string_app_cons, IH.
Qed.

Lemma join_app (sep : string) (l1 l2 : list string) :
  l1 ≠ [] → l2 ≠ [] →
  join sep (l1 ++ l2) = join sep l1 +:+ sep +:+ join sep l2.
Proof.
  intros Hl1 Hl2. induction l1 as [|p [|q l1] IH]; [done | |].
  - destruct l2 as [|q l2]; [done |]. reflexivity.
  - change (p +:+ sep +:+ join sep ((q :: l1) ++ l2)
            = (p +:+ sep +:+ join sep (q :: l1)) +:+ sep +:+ join sep l2).
    rewrite IH by done. by rewrite !string_app_assoc.
Qed.

(** X12.  The rendering of a signature made of two non-empty parts is
    the renderings of the parts with a comma and a space between
    them. *)
Theorem str_signature_app (A B : Sig (Ty:=Ty)) :
  A ≠ [] → B ≠ [] →
  str_signature __name__ (A ++ B)
  = str_signature __name__ A +:+ ", " +:+ str_signature __name__ B.
Proof.
  intros HA HB. unfold str_signature. rewrite fmap_app.
  apply join_app; by destruct A, B.
Qed.

Lemma foldl_append_prefix {X : Type} (g : X → string) (l : list X) (a : string) :
  ∃ rest, foldl (λ text x, text +:+ g x) a l = a +:+ rest.
Proof.
  revert a. induction l as [|x l IH]; intros a; cbn [foldl].
  - exists EmptyString. by rewrite string_app_nil_r.
  - destruct (IH (a +:+ g x)) as [rest ->]. exists (g x +:+ rest).
    apply string_app_assoc.
Qed.

(** X13.  Every warning text opens with an empty line, the sentence that
    names the dispatched function, and an empty line, whatever the
    pairs. *)
Theorem warning_text_header (nm : string) (amb : list (Sig (Ty:=Ty) * Sig (Ty:=Ty))) :
  ∃ rest,
    warning_text __name__ super_signature nm amb
    = newline +:+ "Ambiguities exist in dispatched function " +:+ nm
              +:+ newline +:+ newline +:+ rest.
Proof.
  unfold warning_text.
  match goal with
  | |- context [foldl ?f ?a amb] =>
      destruct (foldl_append_prefix
                  (λ pair : Sig (Ty:=Ty) * Sig (Ty:=Ty),
                     tab +:+ join ", " ((λ s, "[" +:+ str_signature __name__ s +:+ "]")
                                          <$> [pair.1; pair.2]) +:+ newline)
                  amb a) as [rest Hrest]
  end.
  cbv zeta. rewrite Hrest. eexists. rewrite !string_app_assoc. reflexivity.
Qed.

(** X14.  The name of a dispatcher can be read back from its [str]: when
    [str(self)] is [<dispatched n>], the name is [n]. *)
Theorem str_names_the_dispatcher (self : Dispatcher (Ty:=Ty) (Impl:=Impl)) (n : string) :
  __str__ self = "<dispatched " +:+ n +:+ ">" →
  name self = n.
Proof.
  unfold __str__. intros Heq. apply string_app_inj_l in Heq.
  by apply string_app_inj_r in Heq.
Qed.

End RenderingFacts.

(** ** The method dispatcher *)

Section MethodFacts.

Context {Ty : Type} `{Countable Ty}.
Context {Value Impl PyExc : Type}.
Context (issubclass : Ty → Ty → bool).
Context (type : Value → Ty).
Context (invoke : Impl → list Value → list (string * Value)
                  → MethodDispatcher.M (Ty:=Ty) (Value:=Value) (Impl:=Impl)
                      (PyExc:=PyExc) Value).

Local Abbreviation resolve := (resolve (Impl:=Impl) (PyExc:=PyExc) issubclass).
Local Abbreviation method_call :=
  (MethodDispatcher.__call__ issubclass type invoke).
Local Abbreviation __get__ :=
  (MethodDispatcher.__get__ (Ty:=Ty) (Value:=Value) (Impl:=Impl)
                            (PyExc:=PyExc)).

Implicit Types (self : MethodDispatcher.t (Ty:=Ty) (Value:=Value) (Impl:=Impl)).

Lemma method_call_run args kwargs self :
  method_call args kwargs self
  = match resolve (type <$> args) (MethodDispatcher.dispatcher self) with
    | (Return func, d1, tr1) =>
        let self1 := {| MethodDispatcher.dispatcher := d1;
                        MethodDispatcher.obj := MethodDispatcher.obj self;
                        MethodDispatcher.cls := MethodDispatcher.cls self |} in
        match MethodDispatcher.obj self with
        | Some receiver =>
            let '(r, self2, tr2) := invoke func (receiver :: args) kwargs self1 in
            (r, self2, tr1 ++ [] ++ tr2)
        | None => (Raise (AttributeError "obj"), self1, tr1 ++ [])
        end
    | (Raise e, d1, tr1) =>
        (Raise e,
         {| MethodDispatcher.dispatcher := d1;
            MethodDispatcher.obj := MethodDispatcher.obj self;
            MethodDispatcher.cls := MethodDispatcher.cls self |}, tr1)
    end.
Proof.
  unfold MethodDispatcher.__call__, mbind, MethodDispatcher.M_bind,
    MethodDispatcher.inherited, MethodDispatcher.get_obj.
  destruct (resolve (type <$> args) (MethodDispatcher.dispatcher self))
    as [[[func|e] d1] tr1]; cbn beta iota; [| done].
  cbn [MethodDispatcher.obj].
  destruct (MethodDispatcher.obj self) as [receiver|]; [| done].
  by destruct (invoke func (receiver :: args) kwargs _) as [[r2 self2] tr2].
Qed.

(** X15.  A method dispatcher that was never read through an instance has
    no [obj]: its call resolves first, so an exception of the resolution
    comes out as it is and a successful resolution still fills the
    cache, and then raises [AttributeError] without calling any
    implementation. *)
Theorem method_call_unbound args kwargs self :
  MethodDispatcher.obj self = None →
  ∃ selected d1 tr1,
    resolve (type <$> args) (MethodDispatcher.dispatcher self)
    = (selected, d1, tr1)
    ∧ method_call args kwargs self
      = (match selected with
         | Return _ => Raise (AttributeError "obj")
         | Raise e => Raise e
         end,
         {| MethodDispatcher.dispatcher := d1;
            MethodDispatcher.obj := None;
            MethodDispatcher.cls := MethodDispatcher.cls self |},
         tr1).
Proof.
  intros Hobj. rewrite method_call_run, Hobj.
  destruct (resolve (type <$> args) (MethodDispatcher.dispatcher self))
    as [[selected d1] tr1].
  exists selected, d1, tr1. split; [done |].
  destruct selected; [by rewrite app_nil_r | done].
Qed.

(** X16.  The receiver takes no part in dispatch.  Whatever the method
    dispatcher was bound to before, one resolution of the runtime types
    of [args] on the inherited slots serves every [instance], [owner]
    and [kwargs]: after [__get__(instance, owner)] the call is the call
    of the selected implementation on [instance] followed by [args], with
    [kwargs] unchanged. *)
Theorem receiver_never_dispatches args self :
  ∃ selected d1 tr1,
    resolve (type <$> args) (MethodDispatcher.dispatcher self)
    = (selected, d1, tr1)
    ∧ ∀ instance owner kwargs,
        let bound := {| MethodDispatcher.dispatcher := d1;
                        MethodDispatcher.obj := Some instance;
                        MethodDispatcher.cls := Some owner |} in
        method_call args kwargs (__get__ instance owner self).1.2
        = match selected with
          | Return func =>
              let '(r, self2, tr2) :=
                invoke func (instance :: args) kwargs bound in
              (r, self2, tr1 ++ tr2)
          | Raise e => (Raise e, bound, tr1)
          end.
Proof.
  destruct (resolve (type <$> args) (MethodDispatcher.dispatcher self))
    as [[selected d1] tr1] eqn:Hres.
  exists selected, d1, tr1. split; [done |].
  intros instance owner kwargs bound. rewrite method_call_run.
  cbn [MethodDispatcher.__get__ fst snd MethodDispatcher.dispatcher
       MethodDispatcher.obj MethodDispatcher.cls].
  rewrite Hres. by destruct selected.
Qed.

End MethodFacts.

(** ** The further theorems at work on the small host *)

Lemma f2_reachable : Host.reachable Host.f2.
Proof.
  apply reachable_after_resolve, reachable_after_add, reachable_init.
Qed.

Lemma f3_ordering_covers :
  covers (Host.ordering (funcs Host.f3)) (funcs Host.f3).
Proof. apply stable_ordering_covers. Qed.

Lemma f3_ordering_linearizes :
  linearizes Host.issubclass (Host.ordering (funcs Host.f3)).
Proof.
  apply stable_ordering_linearizes;
    [apply host_issubclass_trans | apply host_issubclass_antisym].
Qed.

Lemma registry_keys_nodup_witness : NoDup (PyDict.keys (funcs Host.f3)).
Proof.
  apply (registry_keys_nodup (PyExc:=Host.PyExc) Host.issubclass Host.__name__
           Host.ordering Host.ambiguities Host.super_signature Host.f3).
  apply f3_reachable.
Defined.

Lemma resolve_frame_witness :
  name Host.f2 = name Host.f1
  ∧ funcs Host.f2 = funcs Host.f1
  ∧ ordering Host.f2 = ordering Host.f1
  ∧ (∀ other, other ≠ [Host.Boolean] →
              _cache Host.f2 !! other = _cache Host.f1 !! other)
  ∧ (∀ func, Return (E:=exn (Ty:=Host.PyType) (PyExc:=Host.PyExc)) Host.dec
             = Return func →
             _cache Host.f2 !! [Host.Boolean] = Some func).
Proof.
  apply (resolve_frame (PyExc:=Host.PyExc) Host.issubclass [Host.Boolean]
           Host.f1 (Return Host.dec) Host.f2
           [Visit [Host.Number]; Query Host.Boolean Host.Number]).
  reflexivity.
Defined.

Lemma cache_never_changes_answers_witness :
  (Host.resolve [Host.Boolean] Host.f2).1.1
  = (Host.resolve [Host.Boolean] (with_cache Host.f2 ∅)).1.1.
Proof.
  apply (cache_never_changes_answers (PyExc:=Host.PyExc) Host.issubclass
           Host.__name__ Host.ordering Host.ambiguities Host.super_signature
           [Host.Boolean] Host.f2).
  apply f2_reachable.
Defined.

Lemma ordering_never_stale_witness :
  match ordering Host.f3 with
  | None => funcs Host.f3 = []
  | Some order => order = Host.ordering (funcs Host.f3) ∧ funcs Host.f3 ≠ []
  end.
Proof.
  apply (ordering_never_stale (PyExc:=Host.PyExc) Host.issubclass
           Host.__name__ Host.ordering Host.ambiguities Host.super_signature
           Host.f3).
  apply f3_reachable.
Defined.

Lemma resolve_succeeds_iff_match_witness :
  (∃ func, (Host.resolve [Host.Boolean] Host.f3).1.1 = Return func)
  ↔ (∃ signature,
        signature ∈ PyDict.keys (funcs Host.f3)
        ∧ (signature = [Host.Boolean]
           ∨ matches Host.issubclass [Host.Boolean] signature = true)).
Proof.
  apply (resolve_succeeds_iff_match (PyExc:=Host.PyExc) Host.issubclass
           Host.__name__ Host.ordering Host.ambiguities Host.super_signature
           [Host.Boolean] Host.f3);
    [apply f3_reachable | apply f3_ordering_covers].
Defined.

Lemma resolve_raises_only_not_implemented_witness :
  (∃ func, (Host.resolve [Host.Text] Host.f3).1.1 = Return func)
  ∨ (Host.resolve [Host.Text] Host.f3).1.1 = Raise NotImplementedError.
Proof.
  apply (resolve_raises_only_not_implemented (PyExc:=Host.PyExc)
           Host.issubclass Host.__name__ Host.ordering Host.ambiguities
           Host.super_signature [Host.Text] Host.f3).
  - apply f3_reachable.
  - discriminate.
  - intros signature. apply f3_ordering_covers.
Defined.

Lemma resolve_most_specific_witness :
  ∃ signature,
    PyDict.get signature (funcs Host.f3) = Some Host.inc
    ∧ (signature = [Host.Boolean]
       ∨ matches Host.issubclass [Host.Boolean] signature = true)
    ∧ ∀ other, other ∈ PyDict.keys (funcs Host.f3) →
               (other = [Host.Boolean]
                ∨ matches Host.issubclass [Host.Boolean] other = true) →
               strictly_more_specific Host.issubclass other signature = false.
Proof.
  apply (resolve_most_specific (PyExc:=Host.PyExc) Host.issubclass
           Host.__name__ Host.ordering Host.ambiguities Host.super_signature
           [Host.Boolean] Host.f3 Host.inc
           (Host.resolve [Host.Boolean] Host.f3).1.2
           [Visit [Host.Integer]; Query Host.Boolean Host.Integer]);
    [apply f3_reachable | apply f3_ordering_covers
     | apply f3_ordering_linearizes | reflexivity].
Defined.

Lemma queries_same_arity_witness :
  ∃ order signature i,
    ordering Host.f3 = Some order
    ∧ signature ∈ order
    ∧ length signature = 1
    ∧ [Host.Boolean] !! i = Some Host.Boolean
    ∧ signature !! i = Some Host.Integer.
Proof.
  apply (queries_same_arity (PyExc:=Host.PyExc) Host.issubclass
           [Host.Boolean] Host.f3 (Return Host.inc)
           (Host.resolve [Host.Boolean] Host.f3).1.2
           [Visit [Host.Integer]; Query Host.Boolean Host.Integer]
           Host.Boolean Host.Integer).
  - reflexivity.
  - apply list_elem_of_here.
Defined.

Lemma scan_stops_at_first_match_witness :
  [[Host.Integer]] `prefix_of` default [] (ordering Host.f3)
  ∧ ∀ i signature,
      S i < 1 → [[Host.Integer]] !! i = Some signature →
      matches Host.issubclass [Host.Boolean] signature = false.
Proof.
  apply (scan_stops_at_first_match (PyExc:=Host.PyExc) Host.issubclass
           [Host.Boolean] Host.f3 (Return Host.inc)
           (Host.resolve [Host.Boolean] Host.f3).1.2
           [Visit [Host.Integer]; Query Host.Boolean Host.Integer]).
  reflexivity.
Defined.

Lemma str_signature_app_witness :
  str_signature Host.__name__ ([Host.Integer] ++ [Host.Number; Host.Text])
  = "Integer, Number, Text".
Proof.
  apply (str_signature_app Host.__name__ [Host.Integer]
           [Host.Number; Host.Text]); discriminate.
Defined.

Lemma str_names_the_dispatcher_witness : name Host.f3 = "f".
Proof.
  apply (str_names_the_dispatcher Host.f3 "f"). reflexivity.
Defined.

Lemma method_call_unbound_witness :
  ∃ selected d1 tr1,
    Host.resolve (Host.type <$> [Host.VInteger 4]) Host.f3
    = (selected, d1, tr1)
    ∧ Host.method_call [Host.VInteger 4] [] Host.m3
      = (match selected with
         | Return _ => Raise (AttributeError "obj")
         | Raise e => Raise e
         end,
         {| MethodDispatcher.dispatcher := d1;
            MethodDispatcher.obj := None;
            MethodDispatcher.cls := None |},
         tr1).
Proof.
  apply (method_call_unbound Host.issubclass Host.type Host.invoke_method
           [Host.VInteger 4] [] Host.m3).
  reflexivity.
Defined.

Example method_call_bound :
  (Host.method_call [Host.VInteger 4] []
     (MethodDispatcher.__get__ (PyExc:=Host.PyExc) (Host.VInteger 10)
        Host.Integer Host.m3).1.2).1.1
  = Return (Host.VInteger 14).
Proof. reflexivity. Qed.

Example method_call_rebound :
  let first :=
    (MethodDispatcher.__get__ (PyExc:=Host.PyExc) (Host.VInteger 10)
       Host.Integer Host.m3).1.2 in
  let second :=
    (MethodDispatcher.__get__ (PyExc:=Host.PyExc) (Host.VInteger 20)
       Host.Integer first).1.2 in
  (Host.method_call [Host.VInteger 4] [] second).1.1
  = Return (Host.VInteger 24).
Proof. reflexivity. Qed.
